(** * excel_worker: the table pipeline of [ExcelProcessor]

    A shallow embedding of [src/excel_processor.py]: the row classifier
    ([_rows_of_table], [_get_meta_data]), the materializer ([_format_data]),
    the filter ([_filter_data]), the projection ([_del_fields]) and the
    per-worksheet and per-workbook orchestration ([process]).

    Python strings are carried as their UTF-8 bytes in [string]; equality of
    two Python strings is equality of these bytes. *)

From Stdlib Require Import List String Ascii ZArith Bool Lia DecimalString.
Import ListNotations.
Local Open Scope string_scope.
Local Open Scope list_scope.

(** ** Cells and rows *)

(** The value of a cell as openpyxl hands it over with [data_only=True]:
    a blank cell is [None], a text cell a [str], a whole number an [int];
    a [datetime] is carried by the text that [str()] prints for it.
    Fractional numbers, booleans and times of day are not covered. *)
Inductive pyval : Type :=
  | VNone
  | VStr (s : string)
  | VInt (n : Z)
  | VDate (printed : string).

Definition pyval_eq_dec (a b : pyval) : {a = b} + {a <> b}.
Proof.
  decide equality; first [ apply string_dec | apply Z.eq_dec ].
Defined.

(** Python's [==] on cell values: values of different types are unequal. *)
Definition py_eqb (a b : pyval) : bool :=
  if pyval_eq_dec a b then true else false.

(** [str(v)]. *)
Definition py_str (v : pyval) : string :=
  match v with
  | VNone => "None"
  | VStr s => s
  | VInt n => NilZero.string_of_int (Z.to_int n)
  | VDate printed => printed
  end.

(** A cell: its value and its place on the sheet. *)
Record cell : Type := Cell {
  cell_value : pyval;
  cell_row : nat;
  cell_column : nat
}.

(** A row is the tuple of its cells and a sheet the sequence of its rows,
    as [iter_rows] gives them; the functions below take rows of any
    length. *)
Definition row : Type := list cell.
Definition worksheet : Type := list row.

(** [x in xs] on a tuple or list of values. *)
Definition py_in (x : pyval) (xs : list pyval) : bool :=
  existsb (py_eqb x) xs.

(** ** Exceptions and generators *)

Inductive exn : Type :=
  | StopIteration
  | TablesNotFound (msg : string)
  | FieldNotFound (msg : string)
  | RowsNotFound (msg : string)
  | KeyError (key : pyval)
  | AttributeError (on : pyval)
  | PermissionError (msg : string)
  | OtherError (name : string).

Inductive result (A : Type) : Type :=
  | Ok (a : A)
  | Raise (e : exn).
Arguments Ok {A} a.
Arguments Raise {A} e.

Definition bind {A B : Type} (m : result A) (k : A -> result B) : result B :=
  match m with
  | Ok a => k a
  | Raise e => Raise e
  end.

Notation "x <- m ;; k" := (bind m (fun x => k))
  (at level 61, m at next level, right associativity).

(** A finite generator, described by what a consumer that drains it sees:
    the items it yields, in order, and how it stops after the last of them,
    exhausted ([None]) or by raising ([Some e]).  Nothing behind a raise is
    ever produced. *)
Record gen (A : Type) : Type := Gen {
  yielded : list A;
  raised : option exn
}.
Arguments Gen {A} yielded raised.
Arguments yielded {A} g.
Arguments raised {A} g.

Definition gen_of_list {A : Type} (l : list A) : gen A := Gen l None.

(** [next(g)]: the first item and the rest of the generator, the
    generator's own exception, or [StopIteration] when it is exhausted. *)
Definition next {A : Type} (g : gen A) : result (A * gen A) :=
  match yielded g with
  | x :: rest => Ok (x, Gen rest (raised g))
  | [] =>
      match raised g with
      | Some e => Raise e
      | None => Raise StopIteration
      end
  end.

(** [itertools.chain([x], g)]. *)
Definition chain1 {A : Type} (x : A) (g : gen A) : gen A :=
  Gen (x :: yielded g) (raised g).

(** Draining a generator with a [for] loop: all items, or its exception. *)
Definition drain {A : Type} (g : gen A) : result (list A) :=
  match raised g with
  | None => Ok (yielded g)
  | Some e => Raise e
  end.

(** ** Dictionaries

    A Python [dict] keeps its keys unique and in order of first insertion. *)
Definition dict : Type := list (pyval * cell).

Fixpoint dict_get (d : dict) (k : pyval) : option cell :=
  match d with
  | [] => None
  | (k', c) :: rest => if py_eqb k' k then Some c else dict_get rest k
  end.

(** [d[k] = c]: an existing key keeps its place and takes the new cell, a
    new key goes to the end. *)
Fixpoint dict_set (d : dict) (k : pyval) (c : cell) : dict :=
  match d with
  | [] => [(k, c)]
  | (k', c') :: rest =>
      if py_eqb k' k then (k', c) :: rest else (k', c') :: dict_set rest k c
  end.

(** [d.pop(k, None)]: no error when the key is missing. *)
Fixpoint dict_pop (d : dict) (k : pyval) : dict :=
  match d with
  | [] => []
  | (k', c) :: rest =>
      if py_eqb k' k then rest else (k', c) :: dict_pop rest k
  end.

Definition dict_keys (d : dict) : list pyval := map fst d.
Definition dict_values (d : dict) : list cell := map snd d.

(** [zip(xs, ys)] stops at the shorter of the two. *)
Definition zip {A B : Type} (xs : list A) (ys : list B) : list (A * B) :=
  combine xs ys.

(** [{k: c for k, c in pairs}]. *)
Definition dict_of_pairs (pairs : list (pyval * cell)) : dict :=
  fold_left (fun d kc => dict_set d (fst kc) (snd kc)) pairs [].

Notation "' pat <- m ;; k" :=
  (bind m (fun x => match x with pat => k end))
  (at level 61, pat pattern, m at next level, right associativity).

(** ** The processor *)

(** A workbook as [load_workbook] returns it: the sheets by name, in the
    order of [sheetnames]. *)
Definition workbook : Type := list (string * worksheet).

(** What [process] writes on one sheet of the new workbook: the metadata
    rows (each cell at its old coordinate), the header line and the data
    lines appended below it.  Number formats, fonts, borders and column
    widths are left out. *)
Record out_sheet : Type := OutSheet {
  out_meta : list row;
  out_fields : list pyval;
  out_rows : list (list pyval)
}.

Definition out_workbook : Type := list (string * out_sheet).

Record ExcelProcessor : Type := Processor {
  wb : workbook;
  output_path : string;
  field_name : string;
  value : string;
  fieldnames : list pyval
}.

Definition set_fieldnames (self : ExcelProcessor) (names : list pyval)
  : ExcelProcessor :=
  Processor (wb self) (output_path self) (field_name self) (value self) names.

Definition WANTED_FIELDS : list pyval :=
  [VStr "ФИО"; VStr "Должность"; VStr "Отдел"; VStr "Дата найма";
   VStr "Зарплата"].

Definition msg_tables_not_found : string := "Ни одной таблицы не найдено".
Definition msg_field_not_found : string := "Указанного поля в таблице нет".
Definition msg_rows_not_found : string :=
  "Ни одной записи с указанным значением не найдено".
Definition msg_source_busy : string :=
  "Файл, который вы пытаетесь открыть, занят другим процессом,или у вас нет прав для работы с ним.".
Definition msg_target_busy : string :=
  "Файл с указанным названием занят другим процессом, или у вас нет прав для работы с ним.".

(** [any(cell.value in self.WANTED_FIELDS for cell in row)]. *)
Definition any_wanted (r : row) : bool :=
  existsb (fun c => py_in (cell_value c) WANTED_FIELDS) r.

(** The loop of [_rows_of_table], with its flag [is_table]. *)
Fixpoint rows_of_table_loop (is_table : bool) (rows : list row) : list row :=
  match rows with
  | [] => []
  | r :: rest =>
      let is_table := is_table || any_wanted r in
      if is_table then r :: rows_of_table_loop is_table rest
      else rows_of_table_loop is_table rest
  end.

Definition _rows_of_table (sheet : worksheet) : gen row :=
  gen_of_list (rows_of_table_loop false sheet).

(** The loop of [_get_meta_data]: the same flag, the other branch. *)
Fixpoint get_meta_data_loop (is_table : bool) (rows : list row) : list row :=
  match rows with
  | [] => []
  | r :: rest =>
      let is_table := is_table || any_wanted r in
      if negb is_table then r :: get_meta_data_loop is_table rest
      else get_meta_data_loop is_table rest
  end.

Definition _get_meta_data (sheet : worksheet) : gen row :=
  gen_of_list (get_meta_data_loop false sheet).

(** One step of [_format_data]: the dict built from
    [zip(self.fieldnames, row)]. *)
Definition format_row (self : ExcelProcessor) (r : row) : dict :=
  dict_of_pairs (zip (fieldnames self) r).

Definition _format_data (self : ExcelProcessor) (data : gen row) : gen dict :=
  Gen (map (format_row self) (yielded data)) (raised data).

(** One step of [_del_fields]: pop every name of [self.fieldnames] that is
    not wanted. *)
Definition del_fields_row (self : ExcelProcessor) (r : dict) : dict :=
  fold_left
    (fun d field => if negb (py_in field WANTED_FIELDS) then dict_pop d field
                    else d)
    (fieldnames self) r.

Definition _del_fields (self : ExcelProcessor) (data : gen dict) : gen dict :=
  Gen (map (del_fields_row self) (yielded data)) (raised data).

Section Processor.

(** [str.lower], Python's Unicode lowering, is taken as given. *)
Variable lower : string -> string.

(** [x.lower()] for a header cell value [x]: only a [str] has the method. *)
Definition py_lower (x : pyval) : result string :=
  match x with
  | VStr s => Ok (lower s)
  | _ => Raise (AttributeError x)
  end.

(** [list(filter(lambda x: x.lower() == self.field_name.lower(),
    self.fieldnames))]: the lambda runs on every name, in order. *)
Fixpoint matching_fields (name : string) (names : list pyval)
  : result (list pyval) :=
  match names with
  | [] => Ok []
  | x :: rest =>
      lx <- py_lower x ;;
      found <- matching_fields name rest ;;
      Ok (if String.eqb lx (lower name) then x :: found else found)
  end.

(** The [for row in data] loop of [_filter_data] on the chosen key: a row
    without the key stops the generator with [KeyError]; [stop] is how the
    generator [data] itself ends. *)
Fixpoint filter_loop (key : pyval) (target : string) (rows : list dict)
    (stop : option exn) : gen dict :=
  match rows with
  | [] => Gen [] stop
  | r :: rest =>
      match dict_get r key with
      | None => Gen [] (Some (KeyError key))
      | Some c =>
          if String.eqb (py_str (cell_value c)) target
          then chain1 r (filter_loop key target rest stop)
          else filter_loop key target rest stop
      end
  end.

Definition _filter_data (self : ExcelProcessor) (data : gen dict) : gen dict :=
  match matching_fields (field_name self) (fieldnames self) with
  | Raise e => Gen [] (Some e)
  | Ok [] => Gen [] (Some (FieldNotFound msg_field_not_found))
  | Ok (key :: _) => filter_loop key (value self) (yielded data) (raised data)
  end.

(** The body of the [for sheet_name in self.wb.sheetnames] loop: the new
    state of the processor and the sheet written to the new workbook. *)
Definition process_sheet (self : ExcelProcessor) (sheet : worksheet)
  : result (ExcelProcessor * out_sheet) :=
  let raw_data := _rows_of_table sheet in
  match next raw_data with
  | Raise StopIteration => Raise (TablesNotFound msg_tables_not_found)
  | Raise e => Raise e
  | Ok (first_raw, raw_data) =>
      let raw_data := chain1 first_raw raw_data in
      '(tuple_of_fields, raw_data) <- next raw_data ;;
      let self := set_fieldnames self (map cell_value tuple_of_fields) in
      let data := _format_data self raw_data in
      let filtered_data := _filter_data self data in
      match next filtered_data with
      | Raise StopIteration => Raise (RowsNotFound msg_rows_not_found)
      | Raise e => Raise e
      | Ok (first_row, filtered_data) =>
          let filtered_data := chain1 first_row filtered_data in
          let prepared_data := _del_fields self filtered_data in
          let meta_data := _get_meta_data sheet in
          meta <- drain meta_data ;;
          let fields :=
            filter (fun field => py_in field WANTED_FIELDS) (fieldnames self) in
          rows <- drain prepared_data ;;
          Ok (self,
              OutSheet meta fields
                (map (fun r => map cell_value (dict_values r)) rows))
      end
  end.

Fixpoint process_sheets (self : ExcelProcessor)
    (sheets : list (string * worksheet)) (new_wb : out_workbook)
  : result (ExcelProcessor * out_workbook) :=
  match sheets with
  | [] => Ok (self, new_wb)
  | (sheet_name, sheet) :: rest =>
      '(self, ws) <- process_sheet self sheet ;;
      process_sheets self rest (new_wb ++ [(sheet_name, ws)])
  end.

(** The file system, seen from the processor: what [load_workbook] gives
    for a path, and whether [new_wb.save] raises ([None]: the file is
    written). *)
Variable load_workbook : string -> result workbook.
Variable save : out_workbook -> string -> option exn.

(** [os.path.splitext] and the first eight characters of a fresh
    [uuid.uuid4()]. *)
Variable splitext : string -> string * string.
Variable uuid8 : string.

Definition __init__ (filepath name target output_path : string)
  : result ExcelProcessor :=
  match load_workbook filepath with
  | Raise (PermissionError _) => Raise (PermissionError msg_source_busy)
  | Raise e => Raise e
  | Ok wb =>
      let output_path :=
        if negb (String.eqb output_path "")
           && String.eqb (snd (splitext output_path)) ""
        then (output_path ++ ".xlsx")%string else output_path in
      let output_path :=
        if String.eqb output_path ""
        then (fst (splitext filepath) ++ "_" ++ uuid8 ++ ".xlsx")%string
        else output_path in
      Ok (Processor wb output_path name target [])
  end.

(** What a run leaves behind: the value returned or the exception raised,
    and the file written, if any. *)
Record outcome : Type := Outcome {
  returned : result string;
  written : option (string * out_workbook)
}.

Definition process (self : ExcelProcessor) : outcome :=
  match process_sheets self (wb self) [] with
  | Raise e => Outcome (Raise e) None
  | Ok (self, new_wb) =>
      match save new_wb (output_path self) with
      | None => Outcome (Ok "Готово") (Some (output_path self, new_wb))
      | Some (PermissionError _) =>
          Outcome (Raise (PermissionError msg_target_busy)) None
      | Some e => Outcome (Raise e) None
      end
  end.

(** Construct, then process, as the caller does. *)
Definition run (filepath name target output_path : string) : outcome :=
  match __init__ filepath name target output_path with
  | Raise e => Outcome (Raise e) None
  | Ok self => process self
  end.

End Processor.

(** ** The form ([src/interface.py]) *)

(** [s.split(',')]: the pieces between the commas; an empty text gives
    one empty piece. *)
Fixpoint split_comma (s : string) : list string :=
  match s with
  | EmptyString => [EmptyString]
  | String a rest =>
      match split_comma rest with
      | [] => [String a EmptyString]
      | piece :: pieces =>
          if Ascii.eqb a "," then EmptyString :: piece :: pieces
          else String a piece :: pieces
      end
  end.

(** A keyword argument of the call [ExcelProcessor(...)]. *)
Inductive argument : Type :=
  | ArgStr (s : string)
  | ArgList (l : list string).

(** The parameters of [ExcelProcessor.__init__] after [self]; the last has
    the default [''] and no parameter collects further keywords. *)
Definition init_parameters : list string :=
  ["filepath"; "field_name"; "value"; "output_path"].

(** What the [try] of [run_processor] can catch: the [TypeError] of a call
    that does not fit the parameters ([about]: the offending name), or an
    exception of the processor. *)
Inductive form_error : Type :=
  | TypeError (about : string)
  | Raised (e : exn).

(** The message box [run_processor] ends with: [showerror] with a fixed
    text, [showerror] with [str(e)] of a caught exception, or [showinfo]
    with its title and text. *)
Inductive dialog : Type :=
  | ShowError (text : string)
  | ShowErrorOf (e : form_error)
  | ShowInfo (title : string) (text : string).

(** The first keyword that names no parameter. *)
Definition unexpected_keyword (keywords : list string) : option string :=
  find (fun k => negb (existsb (String.eqb k) init_parameters)) keywords.

Definition keyword (k : string) (kwargs : list (string * argument))
  : option argument :=
  option_map snd (find (fun kv => String.eqb (fst kv) k) kwargs).

Section Form.

Variable lower : string -> string.
(** [str.strip]. *)
Variable strip : string -> string.
Variable load_workbook : string -> result workbook.
Variable save : out_workbook -> string -> option exn.
Variable splitext : string -> string * string.
Variable uuid8 : string.

(** The call of [ExcelProcessor] with keywords: Python binds them to the
    parameters first, and raises [TypeError] without running the body when
    one of them names no parameter or a parameter without default gets
    nothing. *)
Definition new_ExcelProcessor (kwargs : list (string * argument))
  : form_error + ExcelProcessor :=
  match unexpected_keyword (map fst kwargs) with
  | Some k => inl (TypeError k)
  | None =>
      match keyword "filepath" kwargs with
      | Some (ArgStr filepath) =>
          match keyword "field_name" kwargs with
          | Some (ArgStr name) =>
              match keyword "value" kwargs with
              | Some (ArgStr target) =>
                  let dest :=
                    match keyword "output_path" kwargs with
                    | Some (ArgStr dest) => dest
                    | _ => ""
                    end in
                  match __init__ load_workbook splitext uuid8
                          filepath name target dest with
                  | Ok self => inr self
                  | Raise e => inl (Raised e)
                  end
              | _ => inl (TypeError "value")
              end
          | _ => inl (TypeError "field_name")
          end
      | _ => inl (TypeError "filepath")
      end
  end.

(** [run_processor], on the texts of the five entry fields. *)
Definition run_processor (file_entry attr_entry value_entry output_entry
    fields_entry : string) : dialog :=
  let filepath := strip file_entry in
  let attr := strip attr_entry in
  let value := strip value_entry in
  let output_file := strip output_entry in
  let fields :=
    map (fun field => lower (strip field)) (split_comma (strip fields_entry)) in
  if String.eqb filepath "" then ShowError "Вы не выбрали файл!"
  else if String.eqb output_file "" then
    ShowError "Вы не ввели путь и имя конечного файла!"
  else if String.eqb attr "" then ShowError "Вы не ввели название поля!"
  else if String.eqb value "" then
    ShowError "Вы не ввели значение для фильтрации!"
  else
    match new_ExcelProcessor
            [("filepath", ArgStr filepath); ("field_name", ArgStr attr);
             ("value", ArgStr value); ("output_path", ArgStr output_file);
             ("wanted_fields", ArgList fields)] with
    | inl e => ShowErrorOf e
    | inr processor =>
        match returned (process lower save processor) with
        | Ok message =>
            ShowInfo message
              ("Файл обработан и сохранён в:"
               ++ String (ascii_of_nat 10) (output_path processor))%string
        | Raise e => ShowErrorOf (Raised e)
        end
    end.

End Form.

(** ** Vocabulary of the statements *)

Definition is_str (x : pyval) : bool :=
  match x with
  | VStr _ => true
  | _ => false
  end.

(** A header name matches the requested field when both have the same
    lowercase form; a header cell that holds no text matches nothing. *)
Definition header_matches (lower : string -> string) (name : string)
    (x : pyval) : bool :=
  match x with
  | VStr s => String.eqb (lower s) (lower name)
  | _ => false
  end.

(** The test of [_filter_data] on one record, where the record has the
    key. *)
Definition keeps (key : pyval) (target : string) (r : dict) : bool :=
  match dict_get r key with
  | Some c => String.eqb (py_str (cell_value c)) target
  | None => false
  end.

Definition has_key (key : pyval) (r : dict) : bool :=
  match dict_get r key with
  | Some _ => true
  | None => false
  end.

(** The place of the first [x] in [xs], counted from 0 ([length xs] when
    there is none). *)
Fixpoint first_index (x : pyval) (xs : list pyval) : nat :=
  match xs with
  | [] => 0
  | y :: rest => if py_eqb y x then 0 else S (first_index x rest)
  end.

(** ** A concrete setting for the examples *)

(** [str.lower] on UTF-8 text, for the Latin and Cyrillic capitals (which
    is all the examples below contain); every other byte is kept. *)
Fixpoint lower_utf8 (s : string) : string :=
  match s with
  | EmptyString => EmptyString
  | String a rest =>
      let n := nat_of_ascii a in
      if (65 <=? n) && (n <=? 90) then
        String (ascii_of_nat (n + 32)) (lower_utf8 rest)
      else if n =? 208 then
        match rest with
        | EmptyString => String a EmptyString
        | String b rest' =>
            let m := nat_of_ascii b in
            if (128 <=? m) && (m <=? 143) then
              String (ascii_of_nat 209)
                (String (ascii_of_nat (m + 16)) (lower_utf8 rest'))
            else if (144 <=? m) && (m <=? 159) then
              String a (String (ascii_of_nat (m + 32)) (lower_utf8 rest'))
            else if (160 <=? m) && (m <=? 175) then
              String (ascii_of_nat 209)
                (String (ascii_of_nat (m - 32)) (lower_utf8 rest'))
            else String a (String b (lower_utf8 rest'))
        end
      else String a (lower_utf8 rest)
  end%nat.

Module Examples.

(** The cells of one sheet row, numbered from the left. *)
Fixpoint cells_from (r col : nat) (vs : list pyval) : row :=
  match vs with
  | [] => []
  | v :: rest => Cell v r col :: cells_from r (S col) rest
  end.

Fixpoint rows_from (r : nat) (vss : list (list pyval)) : worksheet :=
  match vss with
  | [] => []
  | vs :: rest => cells_from r 1 vs :: rows_from (S r) rest
  end.

Definition sheet_of (vss : list (list pyval)) : worksheet := rows_from 1 vss.

(** Two lines of metadata, the header, two engineers. *)
Definition staff : worksheet :=
  sheet_of
    [ [VStr "Отчёт"; VNone; VNone];
      [VStr "Дата"; VDate "2024-01-15 00:00:00"; VNone];
      [VStr "ФИО"; VStr "Возраст"; VStr "Должность"];
      [VStr "Иванов"; VInt 30; VStr "Инженер"];
      [VStr "Петров"; VInt 40; VStr "Инженер"] ].

Definition engineers : ExcelProcessor :=
  Processor [("Лист1", staff)] "out.xlsx" "должность" "Инженер" [].

(** The processor once [process] has read the header of [staff]. *)
Definition engineers_at_table : ExcelProcessor :=
  set_fieldnames engineers [VStr "ФИО"; VStr "Возраст"; VStr "Должность"].

Definition staff_header : row :=
  cells_from 3 1 [VStr "ФИО"; VStr "Возраст"; VStr "Должность"].

Definition ivanov : row := cells_from 4 1 [VStr "Иванов"; VInt 30; VStr "Инженер"].
Definition petrov : row := cells_from 5 1 [VStr "Петров"; VInt 40; VStr "Инженер"].

(** A table whose only data row stops after the first column. *)
Definition short_sheet : worksheet :=
  sheet_of [ [VStr "ФИО"; VStr "Должность"]; [VStr "Иванов"] ].

Definition short_row : row := cells_from 2 1 [VStr "Иванов"].

Definition by_name : ExcelProcessor :=
  Processor [("Лист1", short_sheet)] "out.xlsx" "фио" "Иванов" [].

Definition by_name_at_table : ExcelProcessor :=
  set_fieldnames by_name [VStr "ФИО"; VStr "Должность"].

(** The same table, filtered on the column the short row lacks. *)
Definition by_post : ExcelProcessor :=
  Processor [("Лист1", short_sheet)] "out.xlsx" "должность" "Инженер" [].

Definition by_post_at_table : ExcelProcessor :=
  set_fieldnames by_post [VStr "ФИО"; VStr "Должность"].

(** A header line with a blank cell at its end. *)
Definition blank_header_sheet : worksheet :=
  sheet_of [ [VStr "ФИО"; VNone]; [VStr "Иванов"; VInt 30] ].

Definition by_salary : ExcelProcessor :=
  Processor [("Лист1", blank_header_sheet)] "out.xlsx" "Зарплата" "100" [].

Definition by_salary_at_table : ExcelProcessor :=
  set_fieldnames by_salary [VStr "ФИО"; VNone].

(** A sheet without any wanted name. *)
Definition notes_only : worksheet :=
  sheet_of [ [VStr "Отчёт"; VNone]; [VStr "Возраст"; VInt 30] ].

(** The staff sheet, filtered for a post nobody holds. *)
Definition directors : ExcelProcessor :=
  Processor [("Лист1", staff)] "out.xlsx" "должность" "Директор" [].

(** File systems: the source is locked; the source opens and holds the
    staff sheet; the target cannot be written; the target can. *)
Definition load_locked (filepath : string) : result workbook :=
  Raise (PermissionError "[Errno 13] Permission denied").

Definition load_staff (filepath : string) : result workbook :=
  Ok [("Лист1", staff)].

Definition save_denied (new_wb : out_workbook) (path : string) : option exn :=
  Some (PermissionError "[Errno 13] Permission denied").

Definition save_done (new_wb : out_workbook) (path : string) : option exn :=
  None.

(** [os.path.splitext] on the paths of the examples, which have no
    directory part and at most one dot. *)
Fixpoint splitext_simple (path : string) : string * string :=
  match path with
  | EmptyString => (EmptyString, EmptyString)
  | String a rest =>
      if Ascii.eqb a "." then (EmptyString, path)
      else let (root, ext) := splitext_simple rest in (String a root, ext)
  end.

(** What [process] writes for [staff] under [engineers]. *)
Definition staff_written : out_sheet :=
  OutSheet (firstn 2 staff)
    [VStr "ФИО"; VStr "Должность"]
    [ [VStr "Иванов"; VStr "Инженер"]; [VStr "Петров"; VStr "Инженер"] ].

(** A workbook whose second sheet has no table. *)
Definition staff_and_notes : ExcelProcessor :=
  Processor [("Штат", staff); ("Заметки", notes_only)]
    "out.xlsx" "должность" "Инженер" [].

(** [str.strip] for the blanks of ASCII: space, tab, line feed, vertical
    tab, form feed, carriage return. *)
Definition is_blank (a : ascii) : bool :=
  let n := nat_of_ascii a in
  ((n =? 32) || ((9 <=? n) && (n <=? 13)))%nat.

Fixpoint lstrip (s : string) : string :=
  match s with
  | EmptyString => EmptyString
  | String a rest => if is_blank a then lstrip rest else s
  end.

Fixpoint rstrip (s : string) : string :=
  match s with
  | EmptyString => EmptyString
  | String a rest =>
      match rstrip rest with
      | EmptyString => if is_blank a then EmptyString else String a EmptyString
      | kept => String a kept
      end
  end.

Definition strip_ascii (s : string) : string := rstrip (lstrip s).

End Examples.

(** * Properties *)

(** ** Equality and membership of cell values *)

Lemma py_eqb_eq (a b : pyval) : py_eqb a b = true <-> a = b.
Proof.
  unfold py_eqb. destruct (pyval_eq_dec a b); split; congruence.
Qed.

Lemma py_eqb_refl (a : pyval) : py_eqb a a = true.
Proof. apply py_eqb_eq. reflexivity. Qed.

Lemma py_eqb_neq (a b : pyval) : py_eqb a b = false <-> a <> b.
Proof.
  unfold py_eqb. destruct (pyval_eq_dec a b); split; congruence.
Qed.

Lemma py_in_In (x : pyval) (xs : list pyval) : py_in x xs = true <-> In x xs.
Proof.
  unfold py_in. rewrite existsb_exists. split.
  - intros [y [Hy He]]. apply py_eqb_eq in He. subst. exact Hy.
  - intros H. exists x. split; [exact H | apply py_eqb_refl].
Qed.

Lemma py_in_not_In (x : pyval) (xs : list pyval) :
  py_in x xs = false <-> ~ In x xs.
Proof.
  rewrite <- py_in_In. destruct (py_in x xs); split; congruence.
Qed.

(** ** The row classifier *)

Lemma rows_of_table_loop_true (rows : list row) :
  rows_of_table_loop true rows = rows.
Proof.
  induction rows as [| r rest IH]; simpl; [reflexivity | now rewrite IH].
Qed.

Lemma get_meta_data_loop_true (rows : list row) :
  get_meta_data_loop true rows = [].
Proof.
  induction rows as [| r rest IH]; simpl; [reflexivity | exact IH].
Qed.

Lemma meta_app_table (rows : list row) :
  get_meta_data_loop false rows ++ rows_of_table_loop false rows = rows.
Proof.
  induction rows as [| r rest IH]; simpl; [reflexivity |].
  destruct (any_wanted r); simpl.
  - now rewrite get_meta_data_loop_true, rows_of_table_loop_true.
  - now rewrite IH.
Qed.

Lemma meta_not_wanted (rows : list row) :
  Forall (fun r => any_wanted r = false) (get_meta_data_loop false rows).
Proof.
  induction rows as [| r rest IH]; simpl; [constructor |].
  destruct (any_wanted r) eqn:E; simpl.
  - rewrite get_meta_data_loop_true. constructor.
  - constructor; assumption.
Qed.

Lemma table_head_wanted (rows : list row) (hdr : row) (rest : list row) :
  rows_of_table_loop false rows = hdr :: rest -> any_wanted hdr = true.
Proof.
  induction rows as [| r rows' IH]; simpl; [discriminate |].
  destruct (any_wanted r) eqn:E; simpl.
  - intros H. injection H as <- _. exact E.
  - exact IH.
Qed.

Lemma table_after_boundary (before after : list row) (r : row) :
  any_wanted r = true ->
  exists pre,
    rows_of_table_loop false (before ++ r :: after) = pre ++ r :: after
    /\ before = get_meta_data_loop false (before ++ r :: after) ++ pre.
Proof.
  intros Hr. induction before as [| b bs IH]; simpl.
  - rewrite Hr. simpl. rewrite rows_of_table_loop_true, get_meta_data_loop_true.
    exists []. split; reflexivity.
  - destruct (any_wanted b); simpl.
    + rewrite rows_of_table_loop_true, get_meta_data_loop_true.
      exists (b :: bs). split; reflexivity.
    + destruct IH as [pre [Ht Hm]]. exists pre. split; [exact Ht |].
      now rewrite <- Hm.
Qed.

Lemma table_empty_iff (rows : list row) :
  rows_of_table_loop false rows = [] <-> Forall (fun r => any_wanted r = false) rows.
Proof.
  split.
  - intros H. pose proof (meta_app_table rows) as P. rewrite H, app_nil_r in P.
    rewrite <- P. apply meta_not_wanted.
  - induction 1 as [| r rest Hr _ IH]; simpl; [reflexivity |].
    rewrite Hr. simpl. exact IH.
Qed.

(** C2.  The two passes of the classifier cut the sheet in two: the
    metadata rows followed by the table rows are the rows of the sheet, in
    order; neither pass raises; no metadata row holds a wanted name and the
    first table row does; and from any row that holds a wanted name on,
    every row is a table row, whatever it holds. *)
Theorem classifier_partitions_sheet (sheet : worksheet) :
  let meta := _get_meta_data sheet in
  let table := _rows_of_table sheet in
  yielded meta ++ yielded table = sheet
  /\ raised meta = None /\ raised table = None
  /\ Forall (fun r => any_wanted r = false) (yielded meta)
  /\ (forall hdr rest, yielded table = hdr :: rest -> any_wanted hdr = true)
  /\ (forall before r after,
        sheet = before ++ r :: after -> any_wanted r = true ->
        exists pre, yielded table = pre ++ r :: after
                    /\ before = yielded meta ++ pre).
Proof.
  simpl. repeat split.
  - apply meta_app_table.
  - apply meta_not_wanted.
  - intros hdr rest. apply table_head_wanted.
  - intros before r after -> Hr. now apply table_after_boundary.
Qed.

(** ** Dictionaries *)

Lemma dict_get_None (d : dict) (k : pyval) :
  dict_get d k = None <-> ~ In k (dict_keys d).
Proof.
  induction d as [| [k' c] rest IH]; simpl.
  - tauto.
  - destruct (py_eqb k' k) eqn:E.
    + apply py_eqb_eq in E. split; [discriminate | intros H; exfalso; auto].
    + apply py_eqb_neq in E. rewrite IH. tauto.
Qed.

Lemma dict_get_Some (d : dict) (k : pyval) :
  (exists c, dict_get d k = Some c) <-> In k (dict_keys d).
Proof.
  destruct (dict_get d k) as [c |] eqn:E.
  - split; [intros _ | intros _; now exists c].
    destruct (in_dec pyval_eq_dec k (dict_keys d)) as [H | H]; [exact H |].
    apply dict_get_None in H. congruence.
  - apply dict_get_None in E. split; [intros [c Hc]; discriminate | tauto].
Qed.

Lemma dict_set_keys (d : dict) (k k' : pyval) (c : cell) :
  In k (dict_keys (dict_set d k' c)) <-> k = k' \/ In k (dict_keys d).
Proof.
  induction d as [| [k0 c0] rest IH]; simpl.
  - intuition congruence.
  - destruct (py_eqb k0 k') eqn:E; simpl.
    + apply py_eqb_eq in E. subst. intuition congruence.
    + rewrite IH. tauto.
Qed.

Lemma dict_set_NoDup (d : dict) (k : pyval) (c : cell) :
  NoDup (dict_keys d) -> NoDup (dict_keys (dict_set d k c)).
Proof.
  induction d as [| [k0 c0] rest IH]; simpl; intros H.
  - constructor; [simpl; tauto | constructor].
  - inversion H as [| ? ? Hn Hr]; subst.
    destruct (py_eqb k0 k) eqn:E; simpl.
    + constructor; assumption.
    + apply py_eqb_neq in E. constructor; [| now apply IH].
      intros Hin. apply dict_set_keys in Hin. destruct Hin; [congruence | tauto].
Qed.

Lemma fold_dict_set_keys (pairs : list (pyval * cell)) (d : dict) (k : pyval) :
  In k (dict_keys
          (fold_left (fun d kc => dict_set d (fst kc) (snd kc)) pairs d))
  <-> In k (dict_keys d) \/ In k (map fst pairs).
Proof.
  revert d. induction pairs as [| [k0 c0] rest IH]; intros d; simpl.
  - tauto.
  - rewrite IH, dict_set_keys. intuition congruence.
Qed.

Lemma fold_dict_set_NoDup (pairs : list (pyval * cell)) (d : dict) :
  NoDup (dict_keys d) ->
  NoDup (dict_keys
           (fold_left (fun d kc => dict_set d (fst kc) (snd kc)) pairs d)).
Proof.
  revert d. induction pairs as [| [k0 c0] rest IH]; intros d H; simpl.
  - exact H.
  - apply IH. now apply dict_set_NoDup.
Qed.

Lemma zip_keys {B : Type} (names : list pyval) (r : list B) :
  map fst (zip names r) = firstn (List.length r) names.
Proof.
  revert r. induction names as [| n names IH]; intros [| c r]; simpl;
    try reflexivity.
  now rewrite <- IH.
Qed.

Lemma in_firstn {A : Type} (n : nat) (l : list A) (x : A) :
  In x (firstn n l) -> In x l.
Proof.
  intros H. rewrite <- (firstn_skipn n l). apply in_or_app. now left.
Qed.

Lemma format_row_keys (self : ExcelProcessor) (r : row) (k : pyval) :
  In k (dict_keys (format_row self r))
  <-> In k (firstn (List.length r) (fieldnames self)).
Proof.
  unfold format_row, dict_of_pairs. rewrite fold_dict_set_keys, zip_keys.
  simpl. tauto.
Qed.

Lemma format_row_NoDup (self : ExcelProcessor) (r : row) :
  NoDup (dict_keys (format_row self r)).
Proof.
  apply fold_dict_set_NoDup. constructor.
Qed.

Lemma filter_all {A : Type} (f : A -> bool) (l : list A) :
  (forall x, In x l -> f x = true) -> filter f l = l.
Proof.
  induction l as [| a l IH]; simpl; intros H; [reflexivity |].
  rewrite (H a (or_introl eq_refl)). f_equal. apply IH. auto.
Qed.

Lemma filter_none {A : Type} (f : A -> bool) (l : list A) :
  (forall x, In x l -> f x = false) -> filter f l = [].
Proof.
  induction l as [| a l IH]; simpl; intros H; [reflexivity |].
  rewrite (H a (or_introl eq_refl)). apply IH. auto.
Qed.

Lemma filter_filter {A : Type} (f g : A -> bool) (l : list A) :
  filter f (filter g l) = filter (fun x => g x && f x) l.
Proof.
  induction l as [| a l IH]; simpl; [reflexivity |].
  destruct (g a); simpl; [destruct (f a) |]; now rewrite IH.
Qed.

Lemma filter_keys_NoDup (f : pyval * cell -> bool) (d : dict) :
  NoDup (dict_keys d) -> NoDup (dict_keys (filter f d)).
Proof.
  induction d as [| kc rest IH]; simpl; intros H; [constructor |].
  inversion H as [| ? ? Hn Hr]; subst.
  destruct (f kc); simpl; [| now apply IH].
  constructor; [| now apply IH].
  intros Hin. apply Hn. unfold dict_keys in *.
  apply in_map_iff in Hin. destruct Hin as [x [Hx Hin]].
  apply filter_In in Hin. apply in_map_iff. exists x. tauto.
Qed.

Lemma dict_pop_filter (d : dict) (k : pyval) :
  NoDup (dict_keys d) ->
  dict_pop d k = filter (fun kc => negb (py_eqb (fst kc) k)) d.
Proof.
  induction d as [| [k0 c0] rest IH]; simpl; intros H; [reflexivity |].
  inversion H as [| ? ? Hn Hr]; subst.
  destruct (py_eqb k0 k) eqn:E; simpl.
  - apply py_eqb_eq in E. subst. symmetry. apply filter_all.
    intros [k1 c1] Hin. simpl. apply negb_true_iff, py_eqb_neq.
    intros ->. apply Hn. apply in_map_iff. exists (k, c1). tauto.
  - f_equal. now apply IH.
Qed.

(** Popping the unwanted names of [names] leaves the entries whose key is
    wanted or is not among [names]. *)
Lemma pop_unwanted_filter (names : list pyval) (d : dict) :
  NoDup (dict_keys d) ->
  fold_left
    (fun d field => if negb (py_in field WANTED_FIELDS) then dict_pop d field
                    else d) names d
  = filter (fun kc => py_in (fst kc) WANTED_FIELDS
                      || negb (py_in (fst kc) names)) d.
Proof.
  revert d. induction names as [| n names IH]; intros d H; cbn [fold_left].
  - symmetry. apply filter_all. intros x _. apply orb_true_r.
  - destruct (py_in n WANTED_FIELDS) eqn:W; cbn [negb].
    + rewrite (IH d H). apply filter_ext. intros [k c]. cbn [fst py_in existsb].
      destruct (py_eqb k n) eqn:E; cbn [orb]; [| reflexivity].
      apply py_eqb_eq in E. subst. fold (py_in n WANTED_FIELDS).
      now rewrite W.
    + rewrite (dict_pop_filter d n H).
      rewrite IH by now apply filter_keys_NoDup.
      rewrite filter_filter. apply filter_ext. intros [k c].
      cbn [fst py_in existsb].
      destruct (py_eqb k n) eqn:E; cbn [orb negb andb]; [| reflexivity].
      apply py_eqb_eq in E. subst. fold (py_in n WANTED_FIELDS).
      now rewrite W.
Qed.

Lemma del_fields_row_filter (self : ExcelProcessor) (r : row) :
  del_fields_row self (format_row self r)
  = filter (fun kc => py_in (fst kc) WANTED_FIELDS) (format_row self r).
Proof.
  unfold del_fields_row.
  rewrite pop_unwanted_filter by apply format_row_NoDup.
  apply filter_ext_in. intros [k c] Hin. simpl.
  assert (Hk : In k (fieldnames self)).
  { assert (In k (dict_keys (format_row self r))) as Hk
      by (apply in_map_iff; exists (k, c); tauto).
    apply format_row_keys in Hk. eapply in_firstn; eauto. }
  apply py_in_In in Hk. rewrite Hk. simpl. apply orb_false_r.
Qed.

(** ** The filter *)

Lemma filter_head_find {A : Type} (f : A -> bool) (l : list A) :
  find f l = hd_error (filter f l).
Proof.
  induction l as [| a l IH]; simpl; [reflexivity |].
  destruct (f a); simpl; [reflexivity | exact IH].
Qed.

Lemma find_none_iff {A : Type} (f : A -> bool) (l : list A) :
  find f l = None <-> forall x, In x l -> f x = false.
Proof.
  split; [apply find_none |].
  induction l as [| a l IH]; simpl; intros H; [reflexivity |].
  rewrite (H a (or_introl eq_refl)). apply IH. auto.
Qed.

Lemma filter_loop_yields (key : pyval) (target : string) (rows : list dict)
    (stop : option exn) (x : dict) :
  In x (yielded (filter_loop key target rows stop)) ->
  In x rows /\ keeps key target x = true.
Proof.
  induction rows as [| r rest IH]; simpl; [tauto |].
  destruct (dict_get r key) as [c |] eqn:G; simpl; [| tauto].
  destruct (String.eqb (py_str (cell_value c)) target) eqn:T; simpl.
  - intros [<- | H].
    + split; [now left |]. unfold keeps. now rewrite G.
    + destruct (IH H). tauto.
  - intros H. destruct (IH H). tauto.
Qed.

Lemma filter_loop_app (key : pyval) (target : string)
    (before rest : list dict) (stop : option exn) :
  (forall b, In b before -> has_key key b = true) ->
  filter_loop key target (before ++ rest) stop
  = Gen (filter (keeps key target) before
         ++ yielded (filter_loop key target rest stop))
        (raised (filter_loop key target rest stop)).
Proof.
  induction before as [| b bs IH]; simpl; intros H.
  - now destruct (filter_loop key target rest stop).
  - pose proof (H b (or_introl eq_refl)) as Hb. unfold has_key, keeps in *.
    destruct (dict_get b key) as [c |]; [| discriminate].
    rewrite IH by auto.
    destruct (String.eqb (py_str (cell_value c)) target); reflexivity.
Qed.

Lemma filter_loop_total (key : pyval) (target : string) (rows : list dict)
    (stop : option exn) :
  (forall r, In r rows -> has_key key r = true) ->
  filter_loop key target rows stop = Gen (filter (keeps key target) rows) stop.
Proof.
  intros H. rewrite <- (app_nil_r rows) at 1.
  rewrite filter_loop_app by exact H. simpl. now rewrite app_nil_r.
Qed.

Lemma filter_loop_raised (key : pyval) (target : string) (rows : list dict)
    (stop : option exn) :
  (raised (filter_loop key target rows stop) = stop
   /\ forall r, In r rows -> has_key key r = true)
  \/ (raised (filter_loop key target rows stop) = Some (KeyError key)
      /\ exists r, In r rows /\ dict_get r key = None).
Proof.
  induction rows as [| r rest IH]; simpl.
  - left. split; [reflexivity | tauto].
  - destruct (dict_get r key) as [c |] eqn:G.
    + assert (Hr : has_key key r = true) by (unfold has_key; now rewrite G).
      destruct IH as [[E H] | [E [x [Hx Hn]]]].
      * left. split.
        -- destruct (String.eqb (py_str (cell_value c)) target); exact E.
        -- intros x [<- | Hx]; auto.
      * right. split.
        -- destruct (String.eqb (py_str (cell_value c)) target); exact E.
        -- exists x. tauto.
    + right. split; [reflexivity |]. exists r. tauto.
Qed.

Section FilterFacts.

Variable lower : string -> string.

Lemma matching_fields_strings (name : string) (names : list pyval) :
  forallb is_str names = true ->
  matching_fields lower name names
  = Ok (filter (header_matches lower name) names).
Proof.
  induction names as [| x rest IH]; simpl; intros H; [reflexivity |].
  apply andb_true_iff in H. destruct H as [Hx Hrest].
  destruct x; try discriminate. simpl. rewrite (IH Hrest). reflexivity.
Qed.

Lemma matching_fields_not_string (name : string) (names : list pyval) :
  forallb is_str names = false ->
  exists x, In x names /\ is_str x = false
            /\ matching_fields lower name names = Raise (AttributeError x).
Proof.
  induction names as [| x rest IH]; simpl; intros H; [discriminate |].
  destruct (is_str x) eqn:Ex; simpl in H.
  - destruct (IH H) as [y [Hy [Hs Hm]]]. exists y. repeat split; auto.
    destruct x; try discriminate. simpl. rewrite Hm. reflexivity.
  - exists x. repeat split; auto. destruct x; try discriminate; reflexivity.
Qed.

Lemma matching_fields_cases (name : string) (names : list pyval) :
  (forallb is_str names = true
   /\ matching_fields lower name names
      = Ok (filter (header_matches lower name) names))
  \/ (exists x, In x names /\ is_str x = false
                /\ matching_fields lower name names
                   = Raise (AttributeError x)).
Proof.
  destruct (forallb is_str names) eqn:E.
  - left. split; [reflexivity | now apply matching_fields_strings].
  - right. now apply matching_fields_not_string.
Qed.

End FilterFacts.

(** ** One worksheet *)

Section SheetFacts.

Variable lower : string -> string.

(** How the filter can stop when the records come from a list of rows. *)
Lemma filter_data_raised (self : ExcelProcessor) (recs : list dict) :
  let out := _filter_data lower self (gen_of_list recs) in
  raised out = None
  \/ (exists key, raised out = Some (KeyError key))
  \/ (exists x, raised out = Some (AttributeError x))
  \/ raised out = Some (FieldNotFound msg_field_not_found).
Proof.
  unfold _filter_data; simpl.
  destruct (matching_fields lower (field_name self) (fieldnames self))
    as [[| key others] | e] eqn:M; simpl.
  - right; right; right. reflexivity.
  - destruct (filter_loop_raised key (value self) recs None) as [[E _] | [E _]];
      rewrite E; [left; reflexivity | right; left; now exists key].
  - destruct (matching_fields_cases lower (field_name self) (fieldnames self))
      as [[_ E] | [x [_ [_ E]]]]; rewrite E in M; [discriminate |].
    injection M as <-. right; right; left. now exists x.
Qed.

Lemma filter_rows_raised (self : ExcelProcessor) (rows : list row) :
  raised (_filter_data lower self (_format_data self (gen_of_list rows)))
    <> Some StopIteration
  /\ forall msg,
       raised (_filter_data lower self (_format_data self (gen_of_list rows)))
       <> Some (RowsNotFound msg)
       /\ raised (_filter_data lower self
                    (_format_data self (gen_of_list rows)))
          <> Some (TablesNotFound msg).
Proof.
  pose proof (filter_data_raised self (map (format_row self) rows)) as R.
  cbv zeta in R.
  change (gen_of_list (map (format_row self) rows))
    with (_format_data self (gen_of_list rows)) in R.
  split; [| intros msg; split];
    destruct R as [R | [[k R] | [[x R] | R]]]; rewrite R; discriminate.
Qed.

Lemma process_sheet_no_table (self : ExcelProcessor) (sheet : worksheet) :
  yielded (_rows_of_table sheet) = [] ->
  process_sheet lower self sheet = Raise (TablesNotFound msg_tables_not_found).
Proof.
  unfold process_sheet, next. intros ->. reflexivity.
Qed.

(** What [process_sheet] does with a sheet that has a table: it hands on
    the exception that stops the filter, if any, raises [RowsNotFound] when
    the filter ends without a record, and writes the sheet otherwise. *)
Lemma process_sheet_table (self : ExcelProcessor) (sheet : worksheet)
    (hdr : row) (rows : list row) :
  yielded (_rows_of_table sheet) = hdr :: rows ->
  let self' := set_fieldnames self (map cell_value hdr) in
  let out := _filter_data lower self' (_format_data self' (gen_of_list rows)) in
  process_sheet lower self sheet =
    match raised out, yielded out with
    | Some e, _ => Raise e
    | None, [] => Raise (RowsNotFound msg_rows_not_found)
    | None, recs =>
        Ok (self',
            OutSheet (yielded (_get_meta_data sheet))
              (filter (fun field => py_in field WANTED_FIELDS)
                 (map cell_value hdr))
              (map (fun r => map cell_value (dict_values r))
                 (map (del_fields_row self') recs)))
    end.
Proof.
  intros Ht self' out.
  pose proof (filter_data_raised self' (map (format_row self') rows)) as Hr.
  unfold process_sheet, next. rewrite Ht. simpl.
  fold self'. change (_format_data self' (Gen rows None))
    with (_format_data self' (gen_of_list rows)). fold out.
  change (_filter_data lower self' (gen_of_list (map (format_row self') rows)))
    with out in Hr. simpl in Hr.
  clearbody out.
  destruct out as [[| first_row others] [e |]]; simpl in *.
  - destruct Hr as [Hr | [[k Hr] | [[x Hr] | Hr]]]; try discriminate;
      injection Hr as ->; reflexivity.
  - reflexivity.
  - reflexivity.
  - reflexivity.
Qed.

End SheetFacts.

(** ** Keys of a record and places in the header *)

Lemma first_index_firstn (x : pyval) (xs : list pyval) (n : nat) :
  In x (firstn n xs) <-> In x xs /\ first_index x xs < n.
Proof.
  revert n. induction xs as [| y rest IH]; intros n; simpl.
  - rewrite firstn_nil. simpl. tauto.
  - destruct n as [| n]; simpl.
    + split; [tauto | intros [_ H]; lia].
    + destruct (py_eqb y x) eqn:E.
      * apply py_eqb_eq in E. subst. split; [intros _ | tauto].
        split; [now left | lia].
      * apply py_eqb_neq in E. rewrite IH. split.
        -- intros [H | [H L]]; [congruence |]. split; [now right | lia].
        -- intros [[H | H] L]; [congruence |]. right. split; [exact H | lia].
Qed.

Lemma format_row_lacks_key (self : ExcelProcessor) (r : row) (h : pyval) :
  In h (fieldnames self) ->
  (dict_get (format_row self r) h = None
   <-> List.length r <= first_index h (fieldnames self)).
Proof.
  intros Hin. rewrite dict_get_None, format_row_keys, first_index_firstn.
  split.
  - intros H. destruct (Nat.le_gt_cases (List.length r)
                          (first_index h (fieldnames self))); [assumption |].
    exfalso. apply H. split; assumption.
  - intros H [_ L]. lia.
Qed.

Lemma has_key_get (key : pyval) (r : dict) :
  has_key key r = true <-> dict_get r key <> None.
Proof.
  unfold has_key. destruct (dict_get r key); split; congruence.
Qed.

Lemma dict_get_filter (p : pyval -> bool) (d : dict) (k : pyval) :
  In k (dict_keys (filter (fun kc => p (fst kc)) d)) ->
  dict_get (filter (fun kc => p (fst kc)) d) k = dict_get d k.
Proof.
  assert (Hp : forall d', In k (dict_keys (filter (fun kc => p (fst kc)) d'))
                          -> p k = true).
  { intros d' H. apply in_map_iff in H. destruct H as [[k' c'] [E H]].
    apply filter_In in H. simpl in *. subst. tauto. }
  induction d as [| [k0 c0] rest IH]; simpl; [tauto |].
  destruct (p k0) eqn:P; simpl.
  - destruct (py_eqb k0 k) eqn:E; [reflexivity |].
    apply py_eqb_neq in E. intros [H | H]; [congruence | now apply IH].
  - intros H. destruct (py_eqb k0 k) eqn:E; [| now apply IH].
    apply py_eqb_eq in E. subst. apply Hp in H. congruence.
Qed.

Lemma filter_keys_iff (p : pyval -> bool) (d : dict) (k : pyval) :
  In k (dict_keys (filter (fun kc => p (fst kc)) d))
  <-> p k = true /\ In k (dict_keys d).
Proof.
  unfold dict_keys. rewrite !in_map_iff. split.
  - intros [[k' c'] [E H]]. apply filter_In in H. simpl in *. subst.
    split; [tauto |]. exists (k, c'). tauto.
  - intros [P [[k' c'] [E H]]]. simpl in *. subst. exists (k, c').
    split; [reflexivity |]. apply filter_In. tauto.
Qed.

(** ** The materializer and the projection *)

(** C7, as amended.  The keys of the record built from a row are pairwise
    different and are the header names at the places the row has a cell
    for: all the header names when the row has at least as many cells as
    the header (also with repeated or blank names), fewer when it is
    shorter.  Once projected, every key left is a wanted name. *)
Theorem record_keys_follow_the_zip (self : ExcelProcessor) (r : row) :
  NoDup (dict_keys (format_row self r))
  /\ (forall k, In k (dict_keys (format_row self r))
                <-> In k (firstn (List.length r) (fieldnames self)))
  /\ (List.length (fieldnames self) <= List.length r ->
      forall k, In k (dict_keys (format_row self r))
                <-> In k (fieldnames self))
  /\ (forall k, In k (dict_keys (del_fields_row self (format_row self r)))
                -> In k WANTED_FIELDS).
Proof.
  split; [apply format_row_NoDup |].
  split; [intros k; apply format_row_keys |].
  split.
  - intros L k. rewrite format_row_keys, firstn_all2 by exact L. tauto.
  - intros k. rewrite del_fields_row_filter.
    rewrite (filter_keys_iff (fun x => py_in x WANTED_FIELDS)).
    rewrite py_in_In. tauto.
Qed.

Lemma record_keys_follow_the_zip_witness :
  List.length (fieldnames Examples.engineers_at_table)
    <= List.length Examples.ivanov
  /\ forall k, In k (dict_keys (format_row Examples.engineers_at_table
                                   Examples.ivanov))
               <-> In k (fieldnames Examples.engineers_at_table).
Proof.
  split; [simpl; lia |].
  apply (record_keys_follow_the_zip Examples.engineers_at_table Examples.ivanov).
  simpl; lia.
Defined.

(** C7 as stated fails on a row shorter than the header: the record of
    the one-cell row under the header (ФИО, Должность) has the key ФИО
    only. *)
Lemma short_row_record_lacks_header_key :
  ~ (forall k,
       In k (dict_keys (format_row Examples.by_name_at_table Examples.short_row))
       <-> In k (fieldnames Examples.by_name_at_table)).
Proof.
  intros H. specialize (H (VStr "Должность")).
  assert (Hin : In (VStr "Должность") (fieldnames Examples.by_name_at_table))
    by (simpl; tauto).
  apply H in Hin. simpl in Hin. destruct Hin as [E | []]. discriminate E.
Qed.

Section ProjectionFacts.

Variable lower : string -> string.

Lemma survivor_is_formatted (self : ExcelProcessor) (rows : list row)
    (rec : dict) :
  In rec (yielded (_filter_data lower self
                     (_format_data self (gen_of_list rows)))) ->
  exists r, In r rows /\ rec = format_row self r.
Proof.
  unfold _filter_data.
  destruct (matching_fields lower (field_name self) (fieldnames self))
    as [[| key others] | e]; simpl; try tauto.
  intros H. apply filter_loop_yields in H. destruct H as [H _].
  apply in_map_iff in H. destruct H as [r [E H]]. exists r. split; auto.
Qed.

(** C3, as amended.  For a record that survives the filter, the projection
    keeps exactly the entries whose key is wanted, with their cells and in
    their order, and raises nothing: the keys left are the wanted names
    among the record's own keys.  They are the wanted names among the
    header names when the row has at least as many cells as the header. *)
Theorem projection_keeps_wanted_keys (self : ExcelProcessor)
    (rows : list row) (rec : dict) :
  In rec (yielded (_filter_data lower self
                     (_format_data self (gen_of_list rows)))) ->
  In (del_fields_row self rec)
     (yielded (_del_fields self
                 (_filter_data lower self
                    (_format_data self (gen_of_list rows)))))
  /\ del_fields_row self rec
     = filter (fun kc => py_in (fst kc) WANTED_FIELDS) rec
  /\ (forall k, In k (dict_keys (del_fields_row self rec))
                <-> In k WANTED_FIELDS /\ In k (dict_keys rec))
  /\ (forall k, In k (dict_keys (del_fields_row self rec)) ->
                dict_get (del_fields_row self rec) k = dict_get rec k)
  /\ exists r, In r rows /\ rec = format_row self r
       /\ (List.length (fieldnames self) <= List.length r ->
           forall k, In k (dict_keys (del_fields_row self rec))
                     <-> In k WANTED_FIELDS /\ In k (fieldnames self)).
Proof.
  intros Hin. destruct (survivor_is_formatted _ _ _ Hin) as [r [Hr E]].
  assert (F : del_fields_row self rec
              = filter (fun kc => py_in (fst kc) WANTED_FIELDS) rec)
    by (subst rec; apply del_fields_row_filter).
  assert (K : forall k, In k (dict_keys (del_fields_row self rec))
                        <-> In k WANTED_FIELDS /\ In k (dict_keys rec)).
  { intros k. rewrite F.
    rewrite (filter_keys_iff (fun x => py_in x WANTED_FIELDS)).
    rewrite py_in_In. tauto. }
  split; [simpl; now apply in_map |].
  split; [exact F |].
  split; [exact K |].
  split.
  - intros k. rewrite F.
    apply (dict_get_filter (fun x => py_in x WANTED_FIELDS)).
  - exists r. split; [exact Hr |]. split; [exact E |].
    intros L k. rewrite K. subst rec.
    rewrite format_row_keys, firstn_all2 by exact L. tauto.
Qed.

End ProjectionFacts.

Lemma projection_keeps_wanted_keys_witness :
  In (format_row Examples.engineers_at_table Examples.petrov)
     (yielded (_filter_data lower_utf8 Examples.engineers_at_table
                 (_format_data Examples.engineers_at_table
                    (gen_of_list [Examples.ivanov; Examples.petrov]))))
  /\ forall k,
       In k (dict_keys (del_fields_row Examples.engineers_at_table
                          (format_row Examples.engineers_at_table
                             Examples.petrov)))
       <-> In k WANTED_FIELDS
           /\ In k (dict_keys (format_row Examples.engineers_at_table
                                 Examples.petrov)).
Proof.
  assert (H : In (format_row Examples.engineers_at_table Examples.petrov)
     (yielded (_filter_data lower_utf8 Examples.engineers_at_table
                 (_format_data Examples.engineers_at_table
                    (gen_of_list [Examples.ivanov; Examples.petrov])))))
    by (vm_compute; tauto).
  split; [exact H |].
  apply (projection_keeps_wanted_keys lower_utf8 Examples.engineers_at_table
           [Examples.ivanov; Examples.petrov] _ H).
Defined.

(** C3 as stated fails on a surviving record of a short row: under the
    header (ФИО, Должность) the one-cell row Иванов passes the filter on
    ФИО, and its projection has no key Должность, a wanted header name. *)
Lemma short_row_projection_lacks_wanted_header :
  In (format_row Examples.by_name_at_table Examples.short_row)
     (yielded (_filter_data lower_utf8 Examples.by_name_at_table
                 (_format_data Examples.by_name_at_table
                    (gen_of_list [Examples.short_row]))))
  /\ ~ (forall k,
          In k (dict_keys (del_fields_row Examples.by_name_at_table
                             (format_row Examples.by_name_at_table
                                Examples.short_row)))
          <-> In k WANTED_FIELDS /\ In k (fieldnames Examples.by_name_at_table)).
Proof.
  split; [vm_compute; tauto |].
  intros H. specialize (H (VStr "Должность")).
  assert (Hin : In (VStr "Должность") WANTED_FIELDS
                /\ In (VStr "Должность") (fieldnames Examples.by_name_at_table))
    by (simpl; tauto).
  apply H in Hin. vm_compute in Hin. destruct Hin as [E | []]. discriminate E.
Qed.

(** ** The filter: which records pass, and how the lookup can fail *)

Section FilterClaims.

Variable lower : string -> string.

Lemma matching_head (self : ExcelProcessor) (h : pyval) (others : list pyval) :
  matching_fields lower (field_name self) (fieldnames self) = Ok (h :: others) ->
  forallb is_str (fieldnames self) = true
  /\ find (header_matches lower (field_name self)) (fieldnames self) = Some h
  /\ In h (fieldnames self).
Proof.
  intros M.
  destruct (matching_fields_cases lower (field_name self) (fieldnames self))
    as [[S E] | [x [_ [_ E]]]]; rewrite E in M; [| discriminate].
  injection M as M. split; [exact S |].
  assert (F : find (header_matches lower (field_name self)) (fieldnames self)
              = Some h) by (rewrite filter_head_find, M; reflexivity).
  split; [exact F |]. apply find_some in F. tauto.
Qed.

(** C1.  Let [h] be the header name the lookup settles on (the first whose
    lowercase form is that of the requested field), and let the filter
    reach the record of row [r], every record before it having the key
    [h].  Then the record is yielded exactly when it has a cell under [h]
    whose [str()] is the target string; a cell whose text is not the
    target, be it equal to it up to case, keeps the record out. *)
Theorem filter_keeps_exact_matches (self : ExcelProcessor) (h : pyval)
    (others : list pyval) (before after : list row) (r : row) :
  matching_fields lower (field_name self) (fieldnames self) = Ok (h :: others) ->
  (forall b, In b before -> dict_get (format_row self b) h <> None) ->
  find (header_matches lower (field_name self)) (fieldnames self) = Some h
  /\ (In (format_row self r)
         (yielded (_filter_data lower self
                     (_format_data self (gen_of_list (before ++ r :: after)))))
      <-> exists c, dict_get (format_row self r) h = Some c
                    /\ py_str (cell_value c) = value self)
  /\ (forall c, dict_get (format_row self r) h = Some c ->
                lower (py_str (cell_value c)) = lower (value self) ->
                py_str (cell_value c) <> value self ->
                ~ In (format_row self r)
                     (yielded (_filter_data lower self
                                 (_format_data self
                                    (gen_of_list (before ++ r :: after)))))).
Proof.
  intros M Hb. destruct (matching_head self h others M) as [_ [F _]].
  split; [exact F |].
  assert (Y : In (format_row self r)
         (yielded (_filter_data lower self
                     (_format_data self (gen_of_list (before ++ r :: after)))))
      <-> exists c, dict_get (format_row self r) h = Some c
                    /\ py_str (cell_value c) = value self).
  { unfold _filter_data. rewrite M. simpl. rewrite map_app. simpl.
    rewrite filter_loop_app.
    2:{ intros b Hin. apply in_map_iff in Hin. destruct Hin as [b0 [<- Hin]].
        apply has_key_get. now apply Hb. }
    simpl. split.
    - intros Hin. apply in_app_or in Hin.
      assert (K : keeps h (value self) (format_row self r) = true).
      { destruct Hin as [Hin | Hin].
        - apply filter_In in Hin. tauto.
        - change (In (format_row self r)
                    (yielded (filter_loop h (value self)
                                (format_row self r
                                 :: map (format_row self) after) None))) in Hin.
          apply filter_loop_yields in Hin. tauto. }
      unfold keeps in K. destruct (dict_get (format_row self r) h) as [c |];
        [| discriminate].
      exists c. split; [reflexivity | now apply String.eqb_eq].
    - intros [c [G E]]. apply in_or_app. right. rewrite G.
      apply String.eqb_eq in E. rewrite E. simpl. now left. }
  split; [exact Y |].
  intros c G _ N Hin. apply Y in Hin. destruct Hin as [c' [G' E]].
  congruence.
Qed.

(** With text in every header cell, the filter stops with [FieldNotFound]
    exactly when no header name has the lowercase form of the requested
    field; when one has, the filter runs on the first such name in header
    order and cannot stop with [FieldNotFound]. *)
Theorem field_not_found_iff_no_match (self : ExcelProcessor) (recs : list dict) :
  forallb is_str (fieldnames self) = true ->
  (raised (_filter_data lower self (gen_of_list recs))
     = Some (FieldNotFound msg_field_not_found)
   <-> forall x, In x (fieldnames self)
                 -> header_matches lower (field_name self) x = false)
  /\ (forall x, In x (fieldnames self) ->
        header_matches lower (field_name self) x = true ->
        (forall msg, raised (_filter_data lower self (gen_of_list recs))
                     <> Some (FieldNotFound msg))
        /\ exists h,
             find (header_matches lower (field_name self)) (fieldnames self)
               = Some h
             /\ _filter_data lower self (gen_of_list recs)
                = filter_loop h (value self) recs None).
Proof.
  intros S. unfold _filter_data.
  rewrite (matching_fields_strings lower _ _ S).
  rewrite <- find_none_iff, filter_head_find.
  destruct (filter (header_matches lower (field_name self)) (fieldnames self))
    as [| h others] eqn:F; simpl.
  - split; [tauto |]. intros x Hin Hm.
    assert (In x []) as []. rewrite <- F. apply filter_In. tauto.
  - split.
    + split; [| discriminate].
      destruct (filter_loop_raised h (value self) recs None) as [[E _] | [E _]];
        rewrite E; discriminate.
    + intros x _ _. split.
      * intros msg.
        destruct (filter_loop_raised h (value self) recs None)
          as [[E _] | [E _]]; rewrite E; discriminate.
      * exists h. split; reflexivity.
Qed.

(** Without any assumption on the header cells: [FieldNotFound] is raised
    only when no header name matches. *)
Lemma field_not_found_only_if_no_match (self : ExcelProcessor)
    (recs : list dict) (msg : string) :
  raised (_filter_data lower self (gen_of_list recs))
    = Some (FieldNotFound msg) ->
  forall x, In x (fieldnames self)
            -> header_matches lower (field_name self) x = false.
Proof.
  unfold _filter_data.
  destruct (matching_fields_cases lower (field_name self) (fieldnames self))
    as [[S E] | [x [_ [_ E]]]]; rewrite E; simpl; [| discriminate].
  destruct (filter (header_matches lower (field_name self)) (fieldnames self))
    as [| h others] eqn:F; simpl.
  - intros _. apply find_none_iff. now rewrite filter_head_find, F.
  - destruct (filter_loop_raised h (value self) recs None) as [[R _] | [R _]];
      rewrite R; discriminate.
Qed.

End FilterClaims.

Section FailureClaims.

Variable lower : string -> string.

(** C9.  Let [h] be the header name the lookup settles on.  A row has no
    cell for [h] exactly when it has no more cells than the place of [h]
    in the header; the filter stops with [KeyError] exactly when the table
    has such a row, and [process] then raises that [KeyError] for the
    sheet; when every row is longer, the filter ends normally with the
    records that pass the test, in order. *)
Theorem short_row_raises_key_error (self : ExcelProcessor) (h : pyval)
    (others : list pyval) (rows : list row) :
  matching_fields lower (field_name self) (fieldnames self) = Ok (h :: others) ->
  (forall r, dict_get (format_row self r) h = None
             <-> List.length r <= first_index h (fieldnames self))
  /\ (raised (_filter_data lower self (_format_data self (gen_of_list rows)))
        = Some (KeyError h)
      <-> exists r, In r rows
                    /\ List.length r <= first_index h (fieldnames self))
  /\ ((forall r, In r rows -> first_index h (fieldnames self) < List.length r)
      -> _filter_data lower self (_format_data self (gen_of_list rows))
         = Gen (filter (keeps h (value self)) (map (format_row self) rows))
             None)
  /\ (forall self0 sheet hdr,
        yielded (_rows_of_table sheet) = hdr :: rows ->
        self = set_fieldnames self0 (map cell_value hdr) ->
        (exists r, In r rows
                   /\ List.length r <= first_index h (fieldnames self)) ->
        process_sheet lower self0 sheet = Raise (KeyError h)).
Proof.
  intros M. destruct (matching_head lower self h others M) as [_ [_ Hh]].
  assert (L : forall r, dict_get (format_row self r) h = None
             <-> List.length r <= first_index h (fieldnames self))
    by (intros r; now apply format_row_lacks_key).
  assert (K : raised (_filter_data lower self
                        (_format_data self (gen_of_list rows)))
              = Some (KeyError h)
      <-> exists r, In r rows
                    /\ List.length r <= first_index h (fieldnames self)).
  { unfold _filter_data. rewrite M. simpl.
    destruct (filter_loop_raised h (value self) (map (format_row self) rows)
                None) as [[E H] | [E [d [Hd G]]]]; rewrite E.
    - split; [discriminate |]. intros [r [Hr Hl]]. exfalso.
      apply L in Hl. specialize (H (format_row self r) (in_map _ _ _ Hr)).
      apply has_key_get in H. contradiction.
    - split; [intros _ | reflexivity].
      apply in_map_iff in Hd. destruct Hd as [r [<- Hr]]. exists r.
      split; [exact Hr | now apply L]. }
  split; [exact L |]. split; [exact K |]. split.
  - intros H. unfold _filter_data. rewrite M. simpl.
    apply filter_loop_total. intros d Hd.
    apply in_map_iff in Hd. destruct Hd as [r [<- Hr]].
    apply has_key_get. intros G. apply L in G. specialize (H r Hr). lia.
  - intros self0 sheet hdr Ht -> Hex.
    rewrite (process_sheet_table lower self0 sheet hdr rows Ht).
    apply K in Hex. fold (gen_of_list rows). rewrite Hex. reflexivity.
Qed.

(** C10.  The lookup raises [AttributeError] exactly when some header cell
    holds no text (a blank cell, a number, a date); nothing is yielded
    then, whatever the requested field, and [process] raises that error
    for a sheet whose header line, taken over as it is, has such a cell.
    With text in every header cell the lookup goes through. *)
Theorem non_text_header_raises_attribute_error (self : ExcelProcessor)
    (recs : list dict) :
  ((exists x, In x (fieldnames self) /\ is_str x = false)
   <-> exists x, raised (_filter_data lower self (gen_of_list recs))
                 = Some (AttributeError x))
  /\ (forall x, raised (_filter_data lower self (gen_of_list recs))
                = Some (AttributeError x) ->
                In x (fieldnames self) /\ is_str x = false
                /\ yielded (_filter_data lower self (gen_of_list recs)) = [])
  /\ (forallb is_str (fieldnames self) = true <->
      exists found, matching_fields lower (field_name self) (fieldnames self)
                    = Ok found)
  /\ (forall self0 sheet hdr rows,
        yielded (_rows_of_table sheet) = hdr :: rows ->
        (exists c, In c hdr /\ is_str (cell_value c) = false) ->
        exists x, In x (map cell_value hdr) /\ is_str x = false
                  /\ process_sheet lower self0 sheet
                     = Raise (AttributeError x)).
Proof.
  assert (A : forall (s : ExcelProcessor) (l : list dict),
             (exists x, In x (fieldnames s) /\ is_str x = false) ->
             exists x, In x (fieldnames s) /\ is_str x = false
                       /\ _filter_data lower s (gen_of_list l)
                          = Gen [] (Some (AttributeError x))).
  { intros s l [x [Hx Sx]].
    assert (F : forallb is_str (fieldnames s) = false).
    { destruct (forallb is_str (fieldnames s)) eqn:F; [| reflexivity].
      rewrite forallb_forall in F. rewrite (F x Hx) in Sx. discriminate. }
    destruct (matching_fields_not_string lower (field_name s) _ F)
      as [y [Hy [Sy E]]].
    exists y. unfold _filter_data. rewrite E. auto. }
  assert (B : forall x, raised (_filter_data lower self (gen_of_list recs))
                = Some (AttributeError x) ->
                In x (fieldnames self) /\ is_str x = false
                /\ yielded (_filter_data lower self (gen_of_list recs)) = []).
  { intros x. unfold _filter_data.
    destruct (matching_fields_cases lower (field_name self) (fieldnames self))
      as [[S E] | [y [Hy [Sy E]]]]; rewrite E; simpl.
    - destruct (filter (header_matches lower (field_name self))
                  (fieldnames self)) as [| h others]; simpl; [discriminate |].
      destruct (filter_loop_raised h (value self) recs None)
        as [[R _] | [R _]]; rewrite R; discriminate.
    - intros R. injection R as <-. auto. }
  split; [| split; [exact B | split]].
  - split.
    + intros H. destruct (A self recs H) as [x [_ [_ E]]]. exists x.
      now rewrite E.
    + intros [x R]. exists x. apply B in R. tauto.
  - destruct (matching_fields_cases lower (field_name self) (fieldnames self))
      as [[S E] | [y [Hy [Sy E]]]]; rewrite E.
    + split; [intros _; eexists; reflexivity | intros _; exact S].
    + split; [| intros [found F]; discriminate].
      intros S. rewrite forallb_forall in S. rewrite (S y Hy) in Sy.
      discriminate.
  - intros self0 sheet hdr rows Ht [c [Hc Sc]].
    rewrite (process_sheet_table lower self0 sheet hdr rows Ht).
    destruct (A (set_fieldnames self0 (map cell_value hdr))
                (map (format_row (set_fieldnames self0 (map cell_value hdr)))
                   rows)) as [x [Hx [Sx E]]].
    { exists (cell_value c). split; [now apply in_map | exact Sc]. }
    exists x. split; [exact Hx |]. split; [exact Sx |].
    unfold _format_data. simpl. unfold gen_of_list in E. rewrite E.
    reflexivity.
Qed.

(** C5.  For a sheet that has a table: when the filter ends without a
    record, [process] raises [RowsNotFound] for the sheet, in particular
    when the lookup settles on a header name under which every row has a
    cell and none has the target; when the filter yields a record,
    [RowsNotFound] is not raised. *)
Theorem rows_not_found_when_filter_empty (self0 : ExcelProcessor)
    (sheet : worksheet) (hdr : row) (rows : list row) :
  yielded (_rows_of_table sheet) = hdr :: rows ->
  (_filter_data lower (set_fieldnames self0 (map cell_value hdr))
     (_format_data (set_fieldnames self0 (map cell_value hdr))
        (gen_of_list rows)) = Gen [] None ->
   process_sheet lower self0 sheet = Raise (RowsNotFound msg_rows_not_found))
  /\ (forall h others,
        matching_fields lower (field_name self0) (map cell_value hdr)
          = Ok (h :: others) ->
        (forall r, In r rows ->
           exists c,
             dict_get (format_row (set_fieldnames self0 (map cell_value hdr)) r)
               h = Some c
             /\ py_str (cell_value c) <> value self0) ->
        process_sheet lower self0 sheet
          = Raise (RowsNotFound msg_rows_not_found))
  /\ (yielded (_filter_data lower (set_fieldnames self0 (map cell_value hdr))
                 (_format_data (set_fieldnames self0 (map cell_value hdr))
                    (gen_of_list rows))) <> [] ->
      forall msg, process_sheet lower self0 sheet <> Raise (RowsNotFound msg)).
Proof.
  intros Ht. rewrite (process_sheet_table lower self0 sheet hdr rows Ht).
  set (self := set_fieldnames self0 (map cell_value hdr)).
  assert (E1 : _filter_data lower self (_format_data self (gen_of_list rows))
               = Gen [] None ->
               match raised (_filter_data lower self
                               (_format_data self (gen_of_list rows))),
                     yielded (_filter_data lower self
                                (_format_data self (gen_of_list rows)))
               with
               | Some e, _ => Raise e
               | None, [] => Raise (RowsNotFound msg_rows_not_found)
               | None, recs =>
                   Ok (self,
                       OutSheet (yielded (_get_meta_data sheet))
                         (filter (fun field => py_in field WANTED_FIELDS)
                            (map cell_value hdr))
                         (map (fun r => map cell_value (dict_values r))
                            (map (del_fields_row self) recs)))
               end = Raise (RowsNotFound msg_rows_not_found))
    by (intros ->; reflexivity).
  split; [exact E1 |]. split.
  - intros h others M H. apply E1.
    unfold _filter_data. change (field_name self) with (field_name self0).
    change (fieldnames self) with (map cell_value hdr). rewrite M. simpl.
    rewrite filter_loop_total.
    + f_equal. apply filter_none. intros d Hd.
      apply in_map_iff in Hd. destruct Hd as [r [<- Hr]].
      destruct (H r Hr) as [c [G N]]. unfold keeps. rewrite G.
      now apply String.eqb_neq.
    + intros d Hd. apply in_map_iff in Hd. destruct Hd as [r [<- Hr]].
      destruct (H r Hr) as [c [G _]]. unfold has_key. now rewrite G.
  - intros Y msg.
    destruct (filter_rows_raised lower self rows) as [_ R].
    destruct (R msg) as [R1 _]. clear R E1.
    destruct (_filter_data lower self (_format_data self (gen_of_list rows)))
      as [[| first_row others] [e |]]; simpl in *; congruence.
Qed.

(** C6.  [process] raises [TablesNotFound] for a sheet exactly when no row
    of the sheet holds a wanted name, which is when the table part is
    empty; for a sheet with a wanted name in some row it is not raised. *)
Theorem tables_not_found_iff_no_wanted_name (self : ExcelProcessor)
    (sheet : worksheet) :
  (yielded (_rows_of_table sheet) = []
   <-> forall r, In r sheet -> any_wanted r = false)
  /\ (process_sheet lower self sheet = Raise (TablesNotFound msg_tables_not_found)
      <-> forall r, In r sheet -> any_wanted r = false)
  /\ ((exists r, In r sheet /\ any_wanted r = true) ->
      forall msg, process_sheet lower self sheet <> Raise (TablesNotFound msg)).
Proof.
  assert (T : yielded (_rows_of_table sheet) = []
              <-> forall r, In r sheet -> any_wanted r = false).
  { simpl. rewrite table_empty_iff. apply Forall_forall. }
  assert (N : forall hdr rows msg,
             yielded (_rows_of_table sheet) = hdr :: rows ->
             process_sheet lower self sheet <> Raise (TablesNotFound msg)).
  { intros hdr rows msg Ht. rewrite (process_sheet_table lower self sheet hdr rows Ht).
    set (self' := set_fieldnames self (map cell_value hdr)).
    destruct (filter_rows_raised lower self' rows) as [_ R].
    destruct (R msg) as [_ R2]. clear R.
    destruct (_filter_data lower self' (_format_data self' (gen_of_list rows)))
      as [[| first_row others] [e |]]; simpl in *; congruence. }
  split; [exact T |]. split.
  - rewrite <- T. split.
    + intros P. destruct (yielded (_rows_of_table sheet)) as [| hdr rows] eqn:Ht;
        [reflexivity |]. exfalso. exact (N hdr rows _ eq_refl P).
    + apply process_sheet_no_table.
  - intros [r [Hr W]] msg.
    destruct (yielded (_rows_of_table sheet)) as [| hdr rows] eqn:Ht.
    + rewrite (proj1 T eq_refl r Hr) in W. discriminate.
    + now apply (N hdr rows).
Qed.

End FailureClaims.

(** ** Files *)

Section FileClaims.

Variable lower : string -> string.
Variable load_workbook : string -> result workbook.
Variable save : out_workbook -> string -> option exn.
Variable splitext : string -> string * string.
Variable uuid8 : string.

(** C8.  The locked-file failure of the specification is Python's
    [PermissionError].  When [load_workbook] raises it for the source, the
    constructor raises a [PermissionError] of its own and the run ends
    there, with no file written; when every sheet went through and
    [save] raises it for the target, [process] raises a [PermissionError]
    as well and no file is written.  A file is written only by a run that
    returns normally. *)
Theorem locked_file_raises_permission_error
    (filepath name target dest : string) :
  (forall msg,
     load_workbook filepath = Raise (PermissionError msg) ->
     __init__ load_workbook splitext uuid8 filepath name target dest
       = Raise (PermissionError msg_source_busy)
     /\ run lower load_workbook save splitext uuid8
          filepath name target dest
        = Outcome (Raise (PermissionError msg_source_busy)) None)
  /\ (forall self self' new_wb msg,
        process_sheets lower self (wb self) [] = Ok (self', new_wb) ->
        save new_wb (output_path self') = Some (PermissionError msg) ->
        process lower save self
          = Outcome (Raise (PermissionError msg_target_busy)) None)
  /\ (forall out,
        written (run lower load_workbook save splitext uuid8
                   filepath name target dest) = Some out ->
        returned (run lower load_workbook save splitext uuid8
                    filepath name target dest) = Ok "Готово").
Proof.
  split; [| split].
  - intros msg L. unfold run, __init__. rewrite L. split; reflexivity.
  - intros self self' new_wb msg P S. unfold process. rewrite P, S.
    reflexivity.
  - intros out. unfold run.
    destruct (__init__ load_workbook splitext uuid8 filepath name target
                dest) as [self | e]; simpl; [| discriminate].
    unfold process.
    destruct (process_sheets lower self (wb self) []) as [[self' new_wb] | e];
      simpl; [| discriminate].
    destruct (save new_wb (output_path self')) as [[] |]; simpl;
      try discriminate. reflexivity.
Qed.

End FileClaims.

(** ** The statements on the example sheets *)

Lemma classifier_partitions_sheet_witness :
  Examples.staff
    = firstn 2 Examples.staff
      ++ Examples.staff_header :: [Examples.ivanov; Examples.petrov]
  /\ any_wanted Examples.staff_header = true
  /\ exists pre,
       yielded (_rows_of_table Examples.staff)
         = pre ++ Examples.staff_header :: [Examples.ivanov; Examples.petrov]
       /\ firstn 2 Examples.staff
          = yielded (_get_meta_data Examples.staff) ++ pre.
Proof.
  split; [reflexivity |]. split; [reflexivity |].
  apply (classifier_partitions_sheet Examples.staff); reflexivity.
Defined.

Lemma filter_keeps_exact_matches_witness :
  matching_fields lower_utf8 (field_name Examples.engineers_at_table)
    (fieldnames Examples.engineers_at_table) = Ok [VStr "Должность"]
  /\ (In (format_row Examples.engineers_at_table Examples.petrov)
         (yielded (_filter_data lower_utf8 Examples.engineers_at_table
                     (_format_data Examples.engineers_at_table
                        (gen_of_list ([Examples.ivanov]
                                      ++ Examples.petrov :: [])))))
      <-> exists c,
            dict_get (format_row Examples.engineers_at_table Examples.petrov)
              (VStr "Должность") = Some c
            /\ py_str (cell_value c) = value Examples.engineers_at_table).
Proof.
  split; [reflexivity |].
  apply (filter_keeps_exact_matches lower_utf8 Examples.engineers_at_table
           (VStr "Должность") [] [Examples.ivanov] [] Examples.petrov).
  - reflexivity.
  - intros b [<- | []]. vm_compute. discriminate.
Defined.

Lemma field_not_found_iff_no_match_witness :
  forallb is_str
    (fieldnames (set_fieldnames Examples.by_salary
                   [VStr "ФИО"; VStr "Должность"])) = true
  /\ raised (_filter_data lower_utf8
               (set_fieldnames Examples.by_salary
                  [VStr "ФИО"; VStr "Должность"]) (gen_of_list []))
     = Some (FieldNotFound msg_field_not_found).
Proof.
  split; [reflexivity |].
  apply (field_not_found_iff_no_match lower_utf8
           (set_fieldnames Examples.by_salary [VStr "ФИО"; VStr "Должность"])
           []).
  - reflexivity.
  - intros x [<- | [<- | []]]; reflexivity.
Defined.

(** C4.  The filter is to stop with [FieldNotFound] exactly when no
    header name matches the requested field.  On the sheet whose header
    line is (ФИО, blank), with the field Зарплата, no header name matches,
    and yet the filter stops with [AttributeError] on the blank cell and
    [process] raises it for the sheet: [.lower()] is called on every
    header cell value before the test for an empty result is reached, so
    [FieldNotFound] is not raised where the statement calls for it. *)
Lemma blank_header_hides_field_not_found :
  yielded (_rows_of_table Examples.blank_header_sheet)
    = Examples.cells_from 1 1 [VStr "ФИО"; VNone]
      :: [Examples.cells_from 2 1 [VStr "Иванов"; VInt 30]]
  /\ fieldnames Examples.by_salary_at_table
     = map cell_value (Examples.cells_from 1 1 [VStr "ФИО"; VNone])
  /\ (forall x, In x (fieldnames Examples.by_salary_at_table)
                -> header_matches lower_utf8
                     (field_name Examples.by_salary_at_table) x = false)
  /\ raised (_filter_data lower_utf8 Examples.by_salary_at_table
               (gen_of_list []))
     = Some (AttributeError VNone)
  /\ process_sheet lower_utf8 Examples.by_salary Examples.blank_header_sheet
     = Raise (AttributeError VNone)
  /\ ~ (raised (_filter_data lower_utf8 Examples.by_salary_at_table
                  (gen_of_list []))
          = Some (FieldNotFound msg_field_not_found)
        <-> forall x, In x (fieldnames Examples.by_salary_at_table)
                      -> header_matches lower_utf8
                           (field_name Examples.by_salary_at_table) x = false).
Proof.
  assert (Z : forall x, In x (fieldnames Examples.by_salary_at_table)
             -> header_matches lower_utf8
                  (field_name Examples.by_salary_at_table) x = false)
    by (intros x [<- | [<- | []]]; reflexivity).
  split; [reflexivity |]. split; [reflexivity |].
  split; [exact Z |]. split; [reflexivity |]. split; [reflexivity |].
  intros [_ H]. specialize (H Z). vm_compute in H. discriminate H.
Qed.

Lemma rows_not_found_when_filter_empty_witness :
  yielded (_rows_of_table Examples.staff)
    = Examples.staff_header :: [Examples.ivanov; Examples.petrov]
  /\ _filter_data lower_utf8
       (set_fieldnames Examples.directors (map cell_value Examples.staff_header))
       (_format_data
          (set_fieldnames Examples.directors
             (map cell_value Examples.staff_header))
          (gen_of_list [Examples.ivanov; Examples.petrov])) = Gen [] None
  /\ process_sheet lower_utf8 Examples.directors Examples.staff
     = Raise (RowsNotFound msg_rows_not_found).
Proof.
  split; [reflexivity |]. split; [reflexivity |].
  apply (rows_not_found_when_filter_empty lower_utf8 Examples.directors
           Examples.staff Examples.staff_header
           [Examples.ivanov; Examples.petrov]); reflexivity.
Defined.

Lemma tables_not_found_iff_no_wanted_name_witness :
  (forall r, In r Examples.notes_only -> any_wanted r = false)
  /\ process_sheet lower_utf8 Examples.engineers Examples.notes_only
     = Raise (TablesNotFound msg_tables_not_found).
Proof.
  assert (H : forall r, In r Examples.notes_only -> any_wanted r = false)
    by (intros r [<- | [<- | []]]; reflexivity).
  split; [exact H |].
  apply (tables_not_found_iff_no_wanted_name lower_utf8 Examples.engineers
           Examples.notes_only). exact H.
Defined.

Lemma locked_file_raises_permission_error_witness :
  (Examples.load_locked "staff.xlsx"
     = Raise (PermissionError "[Errno 13] Permission denied")
   /\ run lower_utf8 Examples.load_locked Examples.save_done
        Examples.splitext_simple "1a2b3c4d"
        "staff.xlsx" "должность" "Инженер" "out"
      = Outcome (Raise (PermissionError msg_source_busy)) None)
  /\ ((exists self' new_wb,
         process_sheets lower_utf8 Examples.engineers
           (wb Examples.engineers) [] = Ok (self', new_wb)
         /\ Examples.save_denied new_wb (output_path self')
            = Some (PermissionError "[Errno 13] Permission denied"))
      /\ process lower_utf8 Examples.save_denied Examples.engineers
         = Outcome (Raise (PermissionError msg_target_busy)) None).
Proof.
  pose proof (locked_file_raises_permission_error lower_utf8
                Examples.load_locked Examples.save_done
                Examples.splitext_simple "1a2b3c4d"
                "staff.xlsx" "должность" "Инженер" "out") as [L _].
  pose proof (locked_file_raises_permission_error lower_utf8
                Examples.load_locked Examples.save_denied
                Examples.splitext_simple "1a2b3c4d"
                "staff.xlsx" "должность" "Инженер" "out") as [_ [S _]].
  assert (P : exists self' new_wb,
         process_sheets lower_utf8 Examples.engineers
           (wb Examples.engineers) [] = Ok (self', new_wb)
         /\ Examples.save_denied new_wb (output_path self')
            = Some (PermissionError "[Errno 13] Permission denied"))
    by (vm_compute; eexists; eexists; split; reflexivity).
  split.
  - split; [reflexivity |].
    exact (proj2 (L "[Errno 13] Permission denied" eq_refl)).
  - split; [exact P |].
    destruct P as [self' [new_wb [P D]]]. exact (S _ _ _ _ P D).
Defined.

Lemma short_row_raises_key_error_witness :
  matching_fields lower_utf8 (field_name Examples.by_post_at_table)
    (fieldnames Examples.by_post_at_table) = Ok [VStr "Должность"]
  /\ (exists r, In r [Examples.short_row]
                /\ List.length r
                   <= first_index (VStr "Должность")
                        (fieldnames Examples.by_post_at_table))
  /\ raised (_filter_data lower_utf8 Examples.by_post_at_table
               (_format_data Examples.by_post_at_table
                  (gen_of_list [Examples.short_row])))
     = Some (KeyError (VStr "Должность")).
Proof.
  assert (S : exists r, In r [Examples.short_row]
                /\ List.length r
                   <= first_index (VStr "Должность")
                        (fieldnames Examples.by_post_at_table)).
  { exists Examples.short_row. split; [now left | vm_compute; lia]. }
  split; [reflexivity |]. split; [exact S |].
  apply (short_row_raises_key_error lower_utf8 Examples.by_post_at_table
           (VStr "Должность") [] [Examples.short_row]).
  - reflexivity.
  - exact S.
Defined.

Lemma non_text_header_raises_attribute_error_witness :
  (exists x, In x (fieldnames Examples.by_salary_at_table)
             /\ is_str x = false)
  /\ exists x, raised (_filter_data lower_utf8 Examples.by_salary_at_table
                         (gen_of_list []))
               = Some (AttributeError x).
Proof.
  assert (S : exists x, In x (fieldnames Examples.by_salary_at_table)
                        /\ is_str x = false).
  { exists VNone. split; [simpl; tauto | reflexivity]. }
  split; [exact S |].
  apply (non_text_header_raises_attribute_error lower_utf8
           Examples.by_salary_at_table []). exact S.
Defined.

(** ** The pipeline on the example sheets *)

Example staff_engineers_kept :
  process_sheet lower_utf8 Examples.engineers Examples.staff
  = Ok (Examples.engineers_at_table,
        OutSheet (firstn 2 Examples.staff)
          [VStr "ФИО"; VStr "Должность"]
          [ [VStr "Иванов"; VStr "Инженер"];
            [VStr "Петров"; VStr "Инженер"] ]).
Proof. reflexivity. Qed.

Example staff_has_no_salary_column :
  process_sheet lower_utf8
    (Processor [("Лист1", Examples.staff)] "out.xlsx" "Зарплата" "100" [])
    Examples.staff
  = Raise (FieldNotFound msg_field_not_found).
Proof. reflexivity. Qed.

Example blank_header_cell_stops_the_sheet :
  process_sheet lower_utf8 Examples.by_salary Examples.blank_header_sheet
  = Raise (AttributeError VNone).
Proof. reflexivity. Qed.

Example short_row_stops_the_sheet :
  process_sheet lower_utf8 Examples.by_post Examples.short_sheet
  = Raise (KeyError (VStr "Должность")).
Proof. reflexivity. Qed.

Example short_row_is_written_short :
  process_sheet lower_utf8 Examples.by_name Examples.short_sheet
  = Ok (Examples.by_name_at_table,
        OutSheet [] [VStr "ФИО"; VStr "Должность"] [ [VStr "Иванов"] ]).
Proof. reflexivity. Qed.

Example numbers_print_in_decimal :
  py_str (VInt 30) = "30" /\ py_str (VInt 0) = "0" /\ py_str (VInt (-7)) = "-7".
Proof. repeat split. Qed.

Example lowering_of_the_field_names :
  lower_utf8 "Должность" = "должность" /\ lower_utf8 "ФИО" = "фио"
  /\ lower_utf8 "Дата найма" = "дата найма" /\ lower_utf8 "Salary" = "salary".
Proof. repeat split. Qed.

(** * Further properties of the processor *)

(** ** Records of rows under repeated and distinct header names *)

Lemma dict_get_set (d : dict) (k' k : pyval) (c : cell) :
  dict_get (dict_set d k' c) k
  = if py_eqb k' k then Some c else dict_get d k.
Proof.
  induction d as [| [k0 c0] rest IH]; simpl.
  - reflexivity.
  - destruct (py_eqb k0 k') eqn:E; simpl.
    + apply py_eqb_eq in E. subst k0. destruct (py_eqb k' k); reflexivity.
    + destruct (py_eqb k0 k) eqn:E0; [| exact IH].
      apply py_eqb_eq in E0. subst k0.
      destruct (py_eqb k' k) eqn:E1; [| reflexivity].
      apply py_eqb_eq in E1. subst k'. rewrite py_eqb_refl in E. discriminate.
Qed.

Lemma find_snoc {A : Type} (f : A -> bool) (l : list A) (a : A) :
  find f (l ++ [a])
  = match find f l with
    | Some x => Some x
    | None => if f a then Some a else None
    end.
Proof.
  induction l as [| b l IH]; simpl; [reflexivity |].
  destruct (f b); [reflexivity | exact IH].
Qed.

Lemma dict_get_fold_set (pairs : list (pyval * cell)) (d : dict) (k : pyval) :
  dict_get (fold_left (fun d kc => dict_set d (fst kc) (snd kc)) pairs d) k
  = match find (fun kc => py_eqb (fst kc) k) (rev pairs) with
    | Some kc => Some (snd kc)
    | None => dict_get d k
    end.
Proof.
  revert d. induction pairs as [| [k0 c0] rest IH]; intros d; simpl.
  - reflexivity.
  - rewrite IH, find_snoc. simpl.
    destruct (find (fun kc => py_eqb (fst kc) k) (rev rest)); [reflexivity |].
    rewrite dict_get_set. destruct (py_eqb k0 k); reflexivity.
Qed.

(** X1.  Under a header that repeats a name, the record of a row holds,
    for that name, the cell of the last column that carries it (among the
    columns the row has a cell for): [record[k]] is the cell paired with
    the last [k] of [zip(self.fieldnames, row)], and is missing when there
    is none. *)
Theorem record_holds_last_cell_of_a_name (self : ExcelProcessor) (r : row)
    (k : pyval) :
  dict_get (format_row self r) k
  = option_map snd
      (find (fun kc => py_eqb (fst kc) k) (rev (zip (fieldnames self) r))).
Proof.
  unfold format_row, dict_of_pairs. rewrite dict_get_fold_set.
  destruct (find (fun kc => py_eqb (fst kc) k) (rev (zip (fieldnames self) r)));
    reflexivity.
Qed.

Lemma dict_set_fresh (d : dict) (k : pyval) (c : cell) :
  ~ In k (dict_keys d) -> dict_set d k c = d ++ [(k, c)].
Proof.
  induction d as [| [k0 c0] rest IH]; simpl; intros H; [reflexivity |].
  destruct (py_eqb k0 k) eqn:E.
  - apply py_eqb_eq in E. tauto.
  - f_equal. apply IH. tauto.
Qed.

Lemma fold_dict_set_distinct (pairs : list (pyval * cell)) (d : dict) :
  NoDup (dict_keys d ++ map fst pairs) ->
  fold_left (fun d kc => dict_set d (fst kc) (snd kc)) pairs d = d ++ pairs.
Proof.
  revert d. induction pairs as [| [k0 c0] rest IH]; intros d H; simpl.
  - now rewrite app_nil_r.
  - simpl in H. rewrite dict_set_fresh.
    + rewrite IH.
      * now rewrite <- app_assoc.
      * unfold dict_keys. rewrite map_app. simpl. rewrite <- app_assoc. exact H.
    + apply NoDup_remove_2 in H. intros Hin. apply H. apply in_or_app. now left.
Qed.

Lemma NoDup_firstn {A : Type} (n : nat) (l : list A) :
  NoDup l -> NoDup (firstn n l).
Proof.
  intros H. rewrite <- (firstn_skipn n l) in H.
  now apply NoDup_app_remove_r in H.
Qed.

Lemma format_row_distinct (self : ExcelProcessor) (r : row) :
  NoDup (fieldnames self) -> format_row self r = zip (fieldnames self) r.
Proof.
  intros H. unfold format_row, dict_of_pairs.
  rewrite fold_dict_set_distinct; [reflexivity |].
  simpl. rewrite zip_keys. now apply NoDup_firstn.
Qed.

Lemma filter_zip_keys (p : pyval -> bool) (names : list pyval) (r : row) :
  List.length names <= List.length r ->
  map fst (filter (fun kc => p (fst kc)) (zip names r)) = filter p names.
Proof.
  revert r. induction names as [| n names IH]; intros [| c r] L; simpl in *;
    try reflexivity; try lia.
  destruct (p n); simpl; rewrite IH by lia; reflexivity.
Qed.

(** ** The written lines *)

(** X2.  A data line is never longer than the header line written above
    it.  When the header names are pairwise different and the row has a
    cell for each of them, the projected record has the wanted header names
    as its keys, in header order, so the data line has one value for each
    field of the header line: the values of the row's cells under the
    wanted names, from left to right. *)
Theorem data_line_fits_header_line (self : ExcelProcessor) (r : row) :
  List.length
    (map cell_value (dict_values (del_fields_row self (format_row self r))))
  <= List.length
       (filter (fun field => py_in field WANTED_FIELDS) (fieldnames self))
  /\ (NoDup (fieldnames self) ->
      List.length (fieldnames self) <= List.length r ->
      dict_keys (del_fields_row self (format_row self r))
        = filter (fun field => py_in field WANTED_FIELDS) (fieldnames self)
      /\ map cell_value (dict_values (del_fields_row self (format_row self r)))
         = map (fun kc => cell_value (snd kc))
             (filter (fun kc => py_in (fst kc) WANTED_FIELDS)
                (zip (fieldnames self) r))).
Proof.
  split.
  - unfold dict_values. rewrite !length_map.
    rewrite <- (length_map fst). fold (dict_keys
                                      (del_fields_row self (format_row self r))).
    apply NoDup_incl_length.
    + rewrite del_fields_row_filter. apply filter_keys_NoDup.
      apply format_row_NoDup.
    + intros k Hk. rewrite del_fields_row_filter in Hk.
      apply (filter_keys_iff (fun x => py_in x WANTED_FIELDS)) in Hk.
      destruct Hk as [W Hk]. apply format_row_keys in Hk.
      apply filter_In. split; [eapply in_firstn; eauto | exact W].
  - intros D L. rewrite del_fields_row_filter, (format_row_distinct self r D).
    split.
    + apply (filter_zip_keys (fun x => py_in x WANTED_FIELDS)). exact L.
    + unfold dict_values. now rewrite map_map.
Qed.

Lemma data_line_fits_header_line_witness :
  NoDup (fieldnames Examples.engineers_at_table)
  /\ List.length (fieldnames Examples.engineers_at_table)
     <= List.length Examples.ivanov
  /\ dict_keys (del_fields_row Examples.engineers_at_table
                  (format_row Examples.engineers_at_table Examples.ivanov))
     = filter (fun field => py_in field WANTED_FIELDS)
         (fieldnames Examples.engineers_at_table).
Proof.
  assert (D : NoDup (fieldnames Examples.engineers_at_table)).
  { repeat constructor; simpl; intuition discriminate. }
  assert (L : List.length (fieldnames Examples.engineers_at_table)
              <= List.length Examples.ivanov) by (simpl; lia).
  split; [exact D |]. split; [exact L |].
  apply (data_line_fits_header_line Examples.engineers_at_table
           Examples.ivanov); assumption.
Defined.

Lemma filter_map_swap {A B : Type} (f : B -> bool) (g : A -> B) (l : list A) :
  filter f (map g l) = map g (filter (fun x => f (g x)) l).
Proof.
  induction l as [| a l IH]; simpl; [reflexivity |].
  destruct (f (g a)); simpl; now rewrite IH.
Qed.

Section WrittenSheet.

Variable lower : string -> string.

(** X3.  When [process] gets through a sheet, the sheet is the metadata
    rows it wrote back, then the header row, then the data rows; no
    metadata row holds a wanted name and the header row does; the header
    line written is the wanted names of the header row, in header order;
    every data row has a cell under the matched header name; and the data
    lines written are the projections of exactly the data rows that pass
    the test, in sheet order, at least one of them. *)
Theorem written_sheet_is_the_filtered_table (self s : ExcelProcessor)
    (sheet : worksheet) (ws : out_sheet) :
  process_sheet lower self sheet = Ok (s, ws) ->
  exists hdr rows h others,
    sheet = out_meta ws ++ hdr :: rows
    /\ Forall (fun r => any_wanted r = false) (out_meta ws)
    /\ any_wanted hdr = true
    /\ s = set_fieldnames self (map cell_value hdr)
    /\ matching_fields lower (field_name self) (map cell_value hdr)
       = Ok (h :: others)
    /\ (forall r, In r rows -> first_index h (map cell_value hdr) < List.length r)
    /\ out_fields ws
       = filter (fun field => py_in field WANTED_FIELDS) (map cell_value hdr)
    /\ out_rows ws
       = map (fun r => map cell_value
                         (dict_values (del_fields_row s (format_row s r))))
           (filter (fun r => keeps h (value self) (format_row s r)) rows)
    /\ out_rows ws <> [].
Proof.
  intros P.
  destruct (yielded (_rows_of_table sheet)) as [| hdr rows] eqn:Ht.
  { rewrite (process_sheet_no_table lower self sheet Ht) in P. discriminate. }
  rewrite (process_sheet_table lower self sheet hdr rows Ht) in P.
  set (s' := set_fieldnames self (map cell_value hdr)) in *.
  assert (M : exists h others,
             matching_fields lower (field_name self) (map cell_value hdr)
             = Ok (h :: others)
             /\ _filter_data lower s' (_format_data s' (gen_of_list rows))
                = filter_loop h (value self) (map (format_row s') rows) None).
  { unfold _filter_data in *. change (field_name s') with (field_name self) in *.
    change (fieldnames s') with (map cell_value hdr) in *.
    destruct (matching_fields lower (field_name self) (map cell_value hdr))
      as [[| h others] | e]; simpl in P; try discriminate.
    exists h, others. split; reflexivity. }
  destruct M as [h [others [M F]]]. rewrite F in P.
  destruct (filter_loop_raised h (value self) (map (format_row s') rows) None)
    as [[R K] | [R _]]; rewrite R in P; [| discriminate].
  rewrite (filter_loop_total h (value self) _ None K) in P. simpl in P.
  rewrite filter_map_swap in P.
  assert (Hh : In h (map cell_value hdr)).
  { change (map cell_value hdr) with (fieldnames s') in M |- *.
    change (field_name self) with (field_name s') in M.
    apply (matching_head lower s' h others M). }
  pose proof (meta_app_table sheet) as Hs. simpl in Ht. rewrite Ht in Hs.
  assert (Hk : forall r, In r rows ->
                 first_index h (map cell_value hdr) < List.length r).
  { intros r Hr. specialize (K (format_row s' r) (in_map _ _ _ Hr)).
    apply has_key_get in K.
    destruct (Nat.le_gt_cases (List.length r)
                (first_index h (map cell_value hdr))) as [Le | Gt];
      [| exact Gt].
    exfalso. apply K. apply (format_row_lacks_key s' r h Hh). exact Le. }
  destruct (filter (fun x => keeps h (value self) (format_row s' x)) rows)
    as [| r0 kept] eqn:Y; simpl in P; [discriminate |].
  injection P as <- <-. simpl.
  exists hdr, rows, h, others. repeat split; auto.
  - apply meta_not_wanted.
  - apply (table_head_wanted sheet hdr rows Ht).
  - rewrite Y. simpl. now rewrite !map_map.
  - discriminate.
Qed.

End WrittenSheet.

Lemma written_sheet_is_the_filtered_table_witness :
  process_sheet lower_utf8 Examples.engineers Examples.staff
    = Ok (Examples.engineers_at_table,
          OutSheet (firstn 2 Examples.staff)
            [VStr "ФИО"; VStr "Должность"]
            [ [VStr "Иванов"; VStr "Инженер"];
              [VStr "Петров"; VStr "Инженер"] ])
  /\ exists hdr rows, Examples.staff = firstn 2 Examples.staff ++ hdr :: rows.
Proof.
  assert (P : process_sheet lower_utf8 Examples.engineers Examples.staff
    = Ok (Examples.engineers_at_table,
          OutSheet (firstn 2 Examples.staff)
            [VStr "ФИО"; VStr "Должность"]
            [ [VStr "Иванов"; VStr "Инженер"];
              [VStr "Петров"; VStr "Инженер"] ])) by reflexivity.
  split; [exact P |].
  destruct (written_sheet_is_the_filtered_table lower_utf8 Examples.engineers
              Examples.engineers_at_table Examples.staff _ P)
    as [hdr [rows [h [others [E _]]]]].
  exists hdr, rows. exact E.
Defined.

(** ** The whole workbook *)

Section WholeWorkbook.

Variable lower : string -> string.
Variable save : out_workbook -> string -> option exn.

(** What [process] is left with after a sheet is the processor with the
    header names of that sheet. *)
Lemma process_sheet_state (self s : ExcelProcessor) (sheet : worksheet)
    (ws : out_sheet) :
  process_sheet lower self sheet = Ok (s, ws) ->
  s = set_fieldnames self (fieldnames s).
Proof.
  intros P.
  destruct (written_sheet_is_the_filtered_table lower self s sheet ws P)
    as [hdr [rows [h [others [_ [_ [_ [E _]]]]]]]].
  rewrite E. reflexivity.
Qed.

(** The header names left by an earlier sheet play no part in the next. *)
Lemma process_sheet_forgets (self : ExcelProcessor) (names : list pyval)
    (sheet : worksheet) :
  process_sheet lower (set_fieldnames self names) sheet
  = process_sheet lower self sheet.
Proof. reflexivity. Qed.

Lemma process_sheets_all_ok (sheets : list (string * worksheet))
    (outs : list out_sheet) (self : ExcelProcessor) :
  Forall2 (fun ns o => exists s, process_sheet lower self (snd ns) = Ok (s, o))
    sheets outs ->
  forall names acc,
  exists names',
    process_sheets lower (set_fieldnames self names) sheets acc
    = Ok (set_fieldnames self names', acc ++ combine (map fst sheets) outs).
Proof.
  induction 1 as [| [name sheet] o sheets outs [s P] _ IH]; intros names acc.
  - exists names. simpl. now rewrite app_nil_r.
  - simpl. rewrite process_sheet_forgets. simpl in P. rewrite P. simpl.
    rewrite (process_sheet_state self s sheet o P).
    destruct (IH (fieldnames s) (acc ++ [(name, o)])) as [names' E].
    exists names'. rewrite E. now rewrite <- app_assoc.
Qed.

Lemma process_sheets_first_failure (before after : list (string * worksheet))
    (outs : list out_sheet) (self : ExcelProcessor) (name : string)
    (sheet : worksheet) (e : exn) :
  Forall2 (fun ns o => exists s, process_sheet lower self (snd ns) = Ok (s, o))
    before outs ->
  process_sheet lower self sheet = Raise e ->
  forall names acc,
    process_sheets lower (set_fieldnames self names)
      (before ++ (name, sheet) :: after) acc = Raise e.
Proof.
  intros H F.
  induction H as [| [name0 sheet0] o sheets outs [s P] _ IH]; intros names acc.
  - simpl. rewrite process_sheet_forgets, F. reflexivity.
  - simpl. rewrite process_sheet_forgets. simpl in P. rewrite P. simpl.
    rewrite (process_sheet_state self s sheet0 o P). apply IH.
Qed.

Lemma process_sheets_inv (sheets : list (string * worksheet))
    (self : ExcelProcessor) :
  forall names acc self' new_wb,
    process_sheets lower (set_fieldnames self names) sheets acc
      = Ok (self', new_wb) ->
    exists outs,
      Forall2 (fun ns o => exists s,
                 process_sheet lower self (snd ns) = Ok (s, o)) sheets outs
      /\ new_wb = acc ++ combine (map fst sheets) outs
      /\ output_path self' = output_path self.
Proof.
  induction sheets as [| [name sheet] rest IH]; intros names acc self' new_wb.
  - simpl. intros E. injection E as <- <-. exists []. repeat split.
    + constructor.
    + now rewrite app_nil_r.
  - simpl. rewrite process_sheet_forgets.
    destruct (process_sheet lower self sheet) as [[s o] | e] eqn:P; simpl;
      [| discriminate].
    rewrite (process_sheet_state self s sheet o P). intros E.
    destruct (IH _ _ _ _ E) as [outs [F [N O]]].
    exists (o :: outs). repeat split.
    + constructor; [now exists s | exact F].
    + rewrite N, <- app_assoc. reflexivity.
    + exact O.
Qed.

Lemma combine_fst {A B : Type} (l : list A) (l' : list B) :
  List.length l = List.length l' -> map fst (combine l l') = l.
Proof.
  revert l'. induction l as [| a l IH]; intros [| b l'] L; simpl in *;
    try reflexivity; try discriminate.
  f_equal. apply IH. lia.
Qed.

Lemma combine_snd {A B : Type} (l : list A) (l' : list B) :
  List.length l = List.length l' -> map snd (combine l l') = l'.
Proof.
  revert l'. induction l as [| a l IH]; intros [| b l'] L; simpl in *;
    try reflexivity; try discriminate.
  f_equal. apply IH. lia.
Qed.

Lemma self_is_set (self : ExcelProcessor) :
  self = set_fieldnames self (fieldnames self).
Proof. destruct self. reflexivity. Qed.

(** X4.  A sheet that fails stops the whole run: when the sheets before it
    go through and [process] raises [e] for it, the run raises [e] and
    writes no file, whatever the sheets after it hold. *)
Theorem failing_sheet_stops_the_run (self : ExcelProcessor)
    (before after : list (string * worksheet)) (outs : list out_sheet)
    (name : string) (sheet : worksheet) (e : exn) :
  wb self = before ++ (name, sheet) :: after ->
  Forall2 (fun ns o => exists s, process_sheet lower self (snd ns) = Ok (s, o))
    before outs ->
  process_sheet lower self sheet = Raise e ->
  process lower save self = Outcome (Raise e) None.
Proof.
  intros W H F. unfold process. rewrite W.
  rewrite (self_is_set self) at 1.
  rewrite (process_sheets_first_failure before after outs self name sheet e H F).
  reflexivity.
Qed.

(** X5.  A file is written only by a run in which every sheet went through
    and [save] did not raise: it is written at [self.output_path], it has
    one sheet for each sheet of the source, under the same name and in the
    same order, each being what [process] makes of that sheet alone, and
    the run returns normally.  Conversely such a run writes that file. *)
Theorem written_file_has_every_sheet (self : ExcelProcessor) :
  (forall path new_wb,
     written (process lower save self) = Some (path, new_wb) ->
     path = output_path self
     /\ returned (process lower save self) = Ok "Готово"
     /\ save new_wb path = None
     /\ map fst new_wb = map fst (wb self)
     /\ Forall2 (fun ns o => exists s,
                   process_sheet lower self (snd ns) = Ok (s, o))
          (wb self) (map snd new_wb))
  /\ (forall outs,
        Forall2 (fun ns o => exists s,
                   process_sheet lower self (snd ns) = Ok (s, o))
          (wb self) outs ->
        save (combine (map fst (wb self)) outs) (output_path self) = None ->
        process lower save self
        = Outcome (Ok "Готово")
            (Some (output_path self, combine (map fst (wb self)) outs))).
Proof.
  split.
  - intros path new_wb. unfold process.
    destruct (process_sheets lower self (wb self) []) as [[self' wb'] | e] eqn:P;
      simpl; [| discriminate].
    rewrite (self_is_set self) in P at 1.
    destruct (process_sheets_inv (wb self) self _ _ _ _ P) as [outs [F [N O]]].
    simpl in N. rewrite O.
    destruct (save wb' (output_path self)) as [[] |] eqn:S; simpl;
      try discriminate.
    intros E. injection E as <- <-. rewrite S.
    assert (L : List.length (map fst (wb self)) = List.length outs)
      by (rewrite length_map; eapply Forall2_length; eauto).
    subst wb'. repeat split.
    + now apply combine_fst.
    + rewrite combine_snd by exact L. exact F.
  - intros outs F S. unfold process.
    rewrite (self_is_set self) at 1.
    destruct (process_sheets_all_ok (wb self) outs self F (fieldnames self) [])
      as [names' E].
    rewrite E. simpl. rewrite S. reflexivity.
Qed.

End WholeWorkbook.

Lemma failing_sheet_stops_the_run_witness :
  wb Examples.staff_and_notes
    = [("Штат", Examples.staff)] ++ ("Заметки", Examples.notes_only) :: []
  /\ process_sheet lower_utf8 Examples.staff_and_notes Examples.notes_only
     = Raise (TablesNotFound msg_tables_not_found)
  /\ process lower_utf8 Examples.save_done Examples.staff_and_notes
     = Outcome (Raise (TablesNotFound msg_tables_not_found)) None.
Proof.
  split; [reflexivity |]. split; [reflexivity |].
  apply (failing_sheet_stops_the_run lower_utf8 Examples.save_done
           Examples.staff_and_notes [("Штат", Examples.staff)] []
           [Examples.staff_written] "Заметки" Examples.notes_only).
  - reflexivity.
  - constructor; [| constructor].
    exists (set_fieldnames Examples.staff_and_notes
              [VStr "ФИО"; VStr "Возраст"; VStr "Должность"]).
    reflexivity.
  - reflexivity.
Defined.

Lemma written_file_has_every_sheet_witness :
  written (process lower_utf8 Examples.save_done Examples.engineers)
    = Some ("out.xlsx", [("Лист1", Examples.staff_written)])
  /\ map fst [("Лист1", Examples.staff_written)]
     = map fst (wb Examples.engineers).
Proof.
  assert (W : written (process lower_utf8 Examples.save_done Examples.engineers)
              = Some ("out.xlsx", [("Лист1", Examples.staff_written)]))
    by reflexivity.
  split; [exact W |].
  apply (proj1 (written_file_has_every_sheet lower_utf8 Examples.save_done
                  Examples.engineers) "out.xlsx" _ W).
Defined.

(** ** The constructor *)

Lemma append_nonempty (s t : string) : t <> "" -> (s ++ t)%string <> "".
Proof.
  destruct s; simpl; [tauto | discriminate].
Qed.

Lemma append_cancel (s t u : string) :
  (s ++ t)%string = (s ++ u)%string -> t = u.
Proof.
  induction s as [| a s IH]; simpl; intros H; [exact H |].
  injection H as H. now apply IH.
Qed.

Section Constructor.

Variable load_workbook : string -> result workbook.
Variable splitext : string -> string * string.
Variable uuid8 : string.

(** X6.  When the source opens, the constructor keeps the workbook, the
    field and the target, starts without header names, and settles the
    output path: a given path that has an extension is taken as it is, one
    without gets [.xlsx] appended, and with no path given it is the source
    path without its extension, followed by [_], the eight identifier
    characters and [.xlsx].  The path is never empty; and the path made up
    for a missing one is not the source path, given that [splitext] cuts
    the source path in two and an extension starts with a dot. *)
Theorem constructor_settles_output_path (filepath name target dest : string)
    (w : workbook) :
  load_workbook filepath = Ok w ->
  exists self,
    __init__ load_workbook splitext uuid8 filepath name target dest = Ok self
    /\ wb self = w /\ field_name self = name /\ value self = target
    /\ fieldnames self = []
    /\ output_path self <> ""
    /\ (dest <> "" -> snd (splitext dest) <> "" -> output_path self = dest)
    /\ (dest <> "" -> snd (splitext dest) = "" ->
        output_path self = (dest ++ ".xlsx")%string)
    /\ (dest = "" ->
        output_path self
        = (fst (splitext filepath) ++ "_" ++ uuid8 ++ ".xlsx")%string
        /\ ((fst (splitext filepath) ++ snd (splitext filepath))%string
              = filepath ->
            (snd (splitext filepath) = ""
             \/ exists t, snd (splitext filepath) = String "." t) ->
            output_path self <> filepath)).
Proof.
  intros L. unfold __init__. rewrite L.
  assert (N : String.eqb (dest ++ ".xlsx") "" = false)
    by (apply String.eqb_neq, append_nonempty; discriminate).
  assert (Default :
            (fst (splitext filepath) ++ snd (splitext filepath))%string
              = filepath ->
            (snd (splitext filepath) = ""
             \/ exists t, snd (splitext filepath) = String "." t) ->
            (fst (splitext filepath) ++ "_" ++ uuid8 ++ ".xlsx")%string
            <> filepath).
  { intros S X E. rewrite <- S in E at 2. apply append_cancel in E.
    destruct X as [X | [t X]]; rewrite X in E; discriminate. }
  destruct (String.eqb dest "") eqn:D;
    destruct (String.eqb (snd (splitext dest)) "") eqn:X;
    simpl; rewrite ?D, ?N; eexists; (split; [reflexivity |]); simpl;
    first [apply String.eqb_eq in D | apply String.eqb_neq in D];
    first [apply String.eqb_eq in X | apply String.eqb_neq in X];
    repeat split; try congruence; try (intros; assumption);
    try (now apply append_nonempty);
    try exact Default.
Qed.

End Constructor.

Lemma constructor_settles_output_path_witness :
  Examples.load_staff "staff.xlsx" = Ok [("Лист1", Examples.staff)]
  /\ exists self,
       __init__ Examples.load_staff Examples.splitext_simple "1a2b3c4d"
         "staff.xlsx" "должность" "Инженер" "" = Ok self
       /\ output_path self = "staff_1a2b3c4d.xlsx".
Proof.
  split; [reflexivity |].
  destruct (constructor_settles_output_path Examples.load_staff
              Examples.splitext_simple "1a2b3c4d"
              "staff.xlsx" "должность" "Инженер" ""
              [("Лист1", Examples.staff)] eq_refl)
    as [self [I [_ [_ [_ [_ [_ [_ [_ D]]]]]]]]].
  exists self. split; [exact I |]. exact (proj1 (D eq_refl)).
Defined.

(** ** The form *)

Section FormFacts.

Variable lower : string -> string.
Variable strip : string -> string.
Variable load_workbook : string -> result workbook.
Variable save : out_workbook -> string -> option exn.
Variable splitext : string -> string * string.
Variable uuid8 : string.

(** X7.  [run_processor] never gets to the processor.  With one of the
    four texts blank it shows the message for the first blank one, in the
    order file, output file, field, value.  With all four filled in, the
    call of the constructor passes the keyword [wanted_fields], which
    [__init__] does not take: the [TypeError] is caught and shown, no file
    is opened or written, and the box that reports success never appears,
    whatever the file system holds. *)
Theorem form_never_reaches_the_processor
    (file_entry attr_entry value_entry output_entry fields_entry : string) :
  run_processor lower strip load_workbook save splitext uuid8
    file_entry attr_entry value_entry output_entry fields_entry
  = (if String.eqb (strip file_entry) "" then
       ShowError "Вы не выбрали файл!"
     else if String.eqb (strip output_entry) "" then
       ShowError "Вы не ввели путь и имя конечного файла!"
     else if String.eqb (strip attr_entry) "" then
       ShowError "Вы не ввели название поля!"
     else if String.eqb (strip value_entry) "" then
       ShowError "Вы не ввели значение для фильтрации!"
     else ShowErrorOf (TypeError "wanted_fields"))
  /\ (forall title text,
        run_processor lower strip load_workbook save splitext uuid8
          file_entry attr_entry value_entry output_entry fields_entry
        <> ShowInfo title text)
  /\ (forall load_workbook' save' splitext' uuid8',
        run_processor lower strip load_workbook' save' splitext' uuid8'
          file_entry attr_entry value_entry output_entry fields_entry
        = run_processor lower strip load_workbook save splitext uuid8
            file_entry attr_entry value_entry output_entry fields_entry).
Proof.
  assert (R : forall load_workbook' save' splitext' uuid8',
             run_processor lower strip load_workbook' save' splitext' uuid8'
               file_entry attr_entry value_entry output_entry fields_entry
             = (if String.eqb (strip file_entry) "" then
                  ShowError "Вы не выбрали файл!"
                else if String.eqb (strip output_entry) "" then
                  ShowError "Вы не ввели путь и имя конечного файла!"
                else if String.eqb (strip attr_entry) "" then
                  ShowError "Вы не ввели название поля!"
                else if String.eqb (strip value_entry) "" then
                  ShowError "Вы не ввели значение для фильтрации!"
                else ShowErrorOf (TypeError "wanted_fields"))).
  { intros l' s' x' u'. unfold run_processor, new_ExcelProcessor.
    reflexivity. }
  split; [apply R |]. split.
  - intros title text. rewrite R.
    destruct (String.eqb (strip file_entry) "");
      destruct (String.eqb (strip output_entry) "");
      destruct (String.eqb (strip attr_entry) "");
      destruct (String.eqb (strip value_entry) ""); discriminate.
  - intros l' s' x' u'. now rewrite !R.
Qed.

End FormFacts.

Lemma form_never_reaches_the_processor_witness :
  run_processor lower_utf8 Examples.strip_ascii Examples.load_staff
    Examples.save_done Examples.splitext_simple "1a2b3c4d"
    " staff.xlsx " "должность" "Инженер" "out" "ФИО, Должность"
  = ShowErrorOf (TypeError "wanted_fields").
Proof.
  rewrite (proj1 (form_never_reaches_the_processor lower_utf8
                    Examples.strip_ascii Examples.load_staff
                    Examples.save_done Examples.splitext_simple "1a2b3c4d"
                    " staff.xlsx " "должность" "Инженер" "out"
                    "ФИО, Должность")).
  reflexivity.
Defined.

(** ** Which failure a sheet ends with *)

Section Precedence.

Variable lower : string -> string.

Lemma matching_fields_first_non_text (name : string) (names : list pyval) :
  matching_fields lower name names
  = match find (fun x => negb (is_str x)) names with
    | Some x => Raise (AttributeError x)
    | None => Ok (filter (header_matches lower name) names)
    end.
Proof.
  induction names as [| x rest IH]; simpl; [reflexivity |].
  destruct x; simpl; try reflexivity.
  rewrite IH. destruct (find (fun x => negb (is_str x)) rest); reflexivity.
Qed.

Lemma short_row_exists (self : ExcelProcessor) (h : pyval) (rows : list row) :
  In h (fieldnames self) ->
  existsb (fun r => List.length r <=? first_index h (fieldnames self))%nat rows
    = true
  <-> exists d, In d (map (format_row self) rows) /\ dict_get d h = None.
Proof.
  intros Hh. rewrite existsb_exists. split.
  - intros [r [Hr L]]. apply Nat.leb_le in L. exists (format_row self r).
    split; [now apply in_map | now apply format_row_lacks_key].
  - intros [d [Hd G]]. apply in_map_iff in Hd. destruct Hd as [r [<- Hr]].
    exists r. split; [exact Hr |]. apply Nat.leb_le.
    now apply format_row_lacks_key.
Qed.

(** X8.  What [process] does with a sheet is settled in this order: no
    row with a wanted name, [TablesNotFound]; else a header cell that
    holds no text, [AttributeError] on the first such cell; else no header
    name with the lowercase form of the field, [FieldNotFound]; else a data
    row with no cell under the first matching name, [KeyError]; else no
    data row with the target under that name, [RowsNotFound]; else the
    sheet is written.  So a blank header cell hides a missing field, and a
    short row anywhere in the table hides both the records found before it
    and the absence of any. *)
Theorem sheet_failures_in_order (self : ExcelProcessor) (sheet : worksheet) :
  process_sheet lower self sheet
  = match yielded (_rows_of_table sheet) with
    | [] => Raise (TablesNotFound msg_tables_not_found)
    | hdr :: rows =>
        let names := map cell_value hdr in
        let self' := set_fieldnames self names in
        match find (fun x => negb (is_str x)) names with
        | Some x => Raise (AttributeError x)
        | None =>
            match find (header_matches lower (field_name self)) names with
            | None => Raise (FieldNotFound msg_field_not_found)
            | Some h =>
                if existsb (fun r => List.length r <=? first_index h names)%nat
                     rows
                then Raise (KeyError h)
                else
                  match filter (fun r => keeps h (value self)
                                           (format_row self' r)) rows with
                  | [] => Raise (RowsNotFound msg_rows_not_found)
                  | kept =>
                      Ok (self',
                          OutSheet (yielded (_get_meta_data sheet))
                            (filter (fun field => py_in field WANTED_FIELDS)
                               names)
                            (map (fun r =>
                                    map cell_value
                                      (dict_values
                                         (del_fields_row self'
                                            (format_row self' r)))) kept))
                  end
            end
        end
    end.
Proof.
  destruct (yielded (_rows_of_table sheet)) as [| hdr rows] eqn:Ht.
  { now apply process_sheet_no_table. }
  rewrite (process_sheet_table lower self sheet hdr rows Ht).
  cbv zeta. set (names := map cell_value hdr).
  set (self' := set_fieldnames self names).
  unfold _filter_data. change (field_name self') with (field_name self).
  change (fieldnames self') with names. change (value self') with (value self).
  rewrite matching_fields_first_non_text.
  destruct (find (fun x => negb (is_str x)) names) as [x |]; [reflexivity |].
  rewrite filter_head_find.
  destruct (filter (header_matches lower (field_name self)) names)
    as [| h others] eqn:F; [reflexivity |].
  cbn [hd_error yielded raised _format_data gen_of_list].
  assert (Hh : In h (fieldnames self')).
  { change (fieldnames self') with names.
    assert (In h (h :: others)) as Hin by now left.
    rewrite <- F in Hin. apply filter_In in Hin. tauto. }
  pose proof (short_row_exists self' h rows Hh) as S.
  change (fieldnames self') with names in S.
  destruct (filter_loop_raised h (value self) (map (format_row self') rows) None)
    as [[R K] | [R E]].
  - destruct (existsb (fun r => List.length r <=? first_index h names)%nat rows)
      eqn:X.
    + exfalso. destruct (proj1 S eq_refl) as [d [Hd G]].
      specialize (K d Hd). apply has_key_get in K. contradiction.
    + rewrite (filter_loop_total h (value self) _ None K).
      cbn [yielded raised]. rewrite filter_map_swap.
      destruct (filter (fun x => keeps h (value self) (format_row self' x)) rows)
        as [| r0 kept]; [reflexivity |].
      cbn [map]. rewrite !map_map. reflexivity.
  - rewrite R. apply S in E. rewrite E. reflexivity.
Qed.

End Precedence.

(** ** Further examples *)

(** A wanted name that stands twice in the header is written twice in the
    header line, and once, with the cell of its last column, in a data
    line. *)
Example repeated_wanted_name_shortens_the_lines :
  process_sheet lower_utf8
    (Processor [] "out.xlsx" "фио" "Петров" [])
    (Examples.sheet_of
       [ [VStr "ФИО"; VStr "Отдел"; VStr "ФИО"];
         [VStr "Иванов"; VStr "Склад"; VStr "Петров"] ])
  = Ok (Processor [] "out.xlsx" "фио" "Петров"
          [VStr "ФИО"; VStr "Отдел"; VStr "ФИО"],
        OutSheet []
          [VStr "ФИО"; VStr "Отдел"; VStr "ФИО"]
          [ [VStr "Петров"; VStr "Склад"] ]).
Proof. reflexivity. Qed.
